(** * engine262: runtime semantics of AssignmentExpression

    A shallow embedding of [src/runtime-semantics/AssignmentExpression.mjs]:
    the cover-grammar refiner [refineLeftHandSideExpression] and the
    generator [Evaluate_AssignmentExpression].

    The AST nodes and the patterns the refiner builds are JavaScript object
    literals, so they are modelled as JavaScript values ([JSVal]): property
    names are strings and a property that is missing reads as [undefined].
    The generator only talks to the rest of the engine through the
    operations it imports; it is modelled as a tree of such calls ([Gen])
    that is run against an arbitrary implementation of them. *)

From Stdlib Require Import String List Bool ZArith.
Import ListNotations.

Set Warnings "-register-all".

Open Scope string_scope.
Open Scope list_scope.

(** ** JavaScript values of the host *)

Module JS.

(** Values the host program manipulates: the AST produced by the parser and
    the assignment patterns built from it.  An array is a list of slots; a
    slot of a sparse array that holds no element is [None].  [JInherited k]
    stands for the member [k] every ordinary object inherits from
    [Object.prototype] (a built-in function, or the prototype itself). *)
Inductive JSVal : Type :=
| JUndefined
| JNull
| JBool (b : bool)
| JStr (s : string)
| JInherited (key : string)
| JArr (slots : list (option JSVal))
| JObj (props : list (string * JSVal)).

(** Exceptions of the host (not completion records of the interpreted
    program): a [TypeError] of the host engine, the [OutOfRange] helper of
    [helpers.mjs], and a failed [Assert]. *)
Inductive HostError : Type :=
| TypeError
| OutOfRange (fn : string) (value : JSVal)
| AssertionError.

Inductive Host (A : Type) : Type :=
| Return (a : A)
| Throw (e : HostError).
Arguments Return {A} a.
Arguments Throw {A} e.

Definition bind {A B} (m : Host A) (f : A -> Host B) : Host B :=
  match m with
  | Return a => f a
  | Throw e => Throw e
  end.

Notation "x <- m ;; k" := (bind m (fun x => k))
  (at level 61, m at next level, right associativity).

(** The own and inherited members of [Object.prototype]. *)
Definition Object_prototype_keys : list string :=
  [ "constructor"; "hasOwnProperty"; "isPrototypeOf"; "propertyIsEnumerable";
    "toLocaleString"; "toString"; "valueOf"; "__proto__";
    "__defineGetter__"; "__defineSetter__";
    "__lookupGetter__"; "__lookupSetter__" ].

Definition mem (k : string) (l : list string) : bool :=
  existsb (String.eqb k) l.

Definition inherited (k : string) : JSVal :=
  if mem k Object_prototype_keys then JInherited k else JUndefined.

(** Own property of an object, given by the first binding of the key; the
    object literals of the source bind each key once. *)
Fixpoint own (k : string) (props : list (string * JSVal)) : option JSVal :=
  match props with
  | [] => None
  | (k', v) :: rest => if String.eqb k k' then Some v else own k rest
  end.

(** [O.P] and [O[P]].  Reading a property of [undefined] or [null] throws;
    an ordinary object answers with its own property, else with what it
    inherits.  For arrays and primitives only the members of
    [Object.prototype] are modelled: the module reads no other property of
    them. *)
Definition Get (O : JSVal) (P : string) : Host JSVal :=
  match O with
  | JUndefined | JNull => Throw TypeError
  | JObj props =>
      match own P props with
      | Some v => Return v
      | None => Return (inherited P)
      end
  | _ => Return (inherited P)
  end.

(** [v === 'text'] *)
Definition strict_equals (v : JSVal) (text : string) : bool :=
  match v with
  | JStr s => String.eqb s text
  | _ => false
  end.

Notation "v === t" := (strict_equals v t) (at level 70, no associativity).

Definition is_null (v : JSVal) : bool :=
  match v with
  | JNull => true
  | _ => false
  end.

(** Truthiness of a host value, as [&&] and [?:] test it. *)
Definition truthy (v : JSVal) : bool :=
  match v with
  | JUndefined | JNull => false
  | JBool b => b
  | JStr s => negb (String.eqb s "")
  | JInherited _ | JArr _ | JObj _ => true
  end.

(** [f] applied to the own property [k] of an object literal; [d] is the
    result for an object without that own property. *)
Definition withProp {A} (k : string) (f : JSVal -> A) (d : A)
  : list (string * JSVal) -> A :=
  fix go props :=
    match props with
    | [] => d
    | (k', v) :: rest => if String.eqb k k' then f v else go rest
    end.

(** [Array.prototype.map]: the callback runs on the elements in index
    order, an empty slot is skipped and stays empty in the result, and an
    exception of the callback ends the iteration. *)
Definition Array_map (f : JSVal -> Host JSVal)
  : list (option JSVal) -> Host (list (option JSVal)) :=
  fix go slots :=
    match slots with
    | [] => Return []
    | None :: rest => r <- go rest ;; Return (None :: r)
    | Some x :: rest => y <- f x ;; r <- go rest ;; Return (Some y :: r)
    end.

(** [Array.prototype.forEach] with a callback that updates [acc]. *)
Definition Array_forEach {A} (f : A -> JSVal -> Host A)
  : list (option JSVal) -> A -> Host A :=
  fix go slots acc :=
    match slots with
    | [] => Return acc
    | None :: rest => go rest acc
    | Some x :: rest => acc' <- f acc x ;; go rest acc'
    end.

End JS.
Import JS.

(** ** The assignment pattern refiner *)

(** The object [refined] that the [ObjectLiteral] case fills in: the array
    it pushes to, and the rest property once it has been assigned. *)
Record Refined : Type := mkRefined {
  AssignmentPropertyList : list JSVal;
  AssignmentRestProperty : option JSVal
}.

Definition Refined_object (r : Refined) : JSVal :=
  JObj ([ ("type", JStr "ObjectAssignmentPattern");
          ("AssignmentPropertyList", JArr (map Some r.(AssignmentPropertyList))) ]
        ++ match r.(AssignmentRestProperty) with
           | Some rest => [ ("AssignmentRestProperty", rest) ]
           | None => []
           end).

(** The callback of [node.PropertyDefinitionList.forEach]. *)
Definition PropertyDefinition_callback (refine : JSVal -> Host JSVal)
  (refined : Refined) (p : JSVal) : Host Refined :=
  let push :=
    r <- refine p ;;
    Return (mkRefined (refined.(AssignmentPropertyList) ++ [r])
                      refined.(AssignmentRestProperty)) in
  name <- Get p "PropertyName" ;;
  if is_null name then
    value <- Get p "AssignmentExpression" ;;
    if truthy value then
      Return (mkRefined refined.(AssignmentPropertyList)
                (Some (JObj [ ("type", JStr "AssignmentRestProperty");
                              ("DestructuringAssignmentTarget", value) ])))
    else push
  else push.

(** The [PropertyDefinition] case. *)
Definition refine_PropertyDefinition (node : JSVal) : Host JSVal :=
  name <- Get node "PropertyName" ;;
  value <- Get node "AssignmentExpression" ;;
  type <- Get value "type" ;;
  element <-
    (if type === "AssignmentExpression" then
       target <- Get value "LeftHandSideExpression" ;;
       default <- Get value "AssignmentExpression" ;;
       Return (JObj [ ("type", JStr "AssignmentElement");
                      ("DestructuringAssignmentTarget", target);
                      ("AssignmentExpression", default) ])
     else
       Return (JObj [ ("type", JStr "AssignmentElement");
                      ("DestructuringAssignmentTarget", value);
                      ("Initializer", JUndefined) ])) ;;
  Return (JObj [ ("type", JStr "AssignmentProperty");
                 ("PropertyName", name);
                 ("AssignmentElement", element) ]).

Definition OutOfRange_refine (type : JSVal) : HostError :=
  OutOfRange "refineLeftHandSideExpression" type.

(** [refineLeftHandSideExpression(node)].  The [switch] is on [node.type],
    which only an object can have a string for.  Among the values of an AST
    only an array has the methods [map] and [forEach]: calling them on
    anything else is a [TypeError].  A list that is an object with a
    function of its own under one of these names is no value of an AST, and
    what such a function would do is not modelled. *)
Fixpoint refineLeftHandSideExpression (node : JSVal) : Host JSVal :=
  match node with
  | JUndefined | JNull => Throw TypeError
  | JObj props =>
      let type := match own "type" props with
                  | Some t => t
                  | None => JUndefined
                  end in
      if type === "ArrayLiteral" then
        withProp "ElementList"
          (fun list =>
             match list with
             | JArr slots =>
                 elements <- Array_map refineLeftHandSideExpression slots ;;
                 Return (JObj [ ("type", JStr "ArrayAssignmentPattern");
                                ("AssignmentElementList", JArr elements) ])
             | _ => Throw TypeError
             end)
          (Throw TypeError) props
      else if type === "ObjectLiteral" then
        withProp "PropertyDefinitionList"
          (fun list =>
             match list with
             | JArr slots =>
                 refined <- Array_forEach
                              (PropertyDefinition_callback refineLeftHandSideExpression)
                              slots (mkRefined [] None) ;;
                 Return (Refined_object refined)
             | _ => Throw TypeError
             end)
          (Throw TypeError) props
      else if type === "PropertyDefinition" then
        refine_PropertyDefinition node
      else if type === "IdentifierReference" then
        Return (JObj [ ("type", JStr "AssignmentProperty");
                       ("IdentifierReference", node);
                       ("Initializer", JUndefined) ])
      else if type === "CoverInitializedName" then
        id <- Get node "IdentifierReference" ;;
        init <- Get node "Initializer" ;;
        Return (JObj [ ("type", JStr "AssignmentProperty");
                       ("IdentifierReference", id);
                       ("Initializer", init) ])
      else if type === "AssignmentExpression" then
        target <- Get node "LeftHandSideExpression" ;;
        init <- Get node "AssignmentExpression" ;;
        Return (JObj [ ("type", JStr "AssignmentElement");
                       ("DestructuringAssignmentTarget", target);
                       ("Initializer", init) ])
      else Throw (OutOfRange_refine type)
  | _ => Throw (OutOfRange_refine JUndefined)
  end.

(** AST nodes as the parser builds them. *)
Module Ast.

Definition IdentifierReference (name : string) : JSVal :=
  JObj [ ("type", JStr "IdentifierReference"); ("name", JStr name) ].

Definition Elision : JSVal :=
  JObj [ ("type", JStr "Elision") ].

Definition ArrayLiteral (elements : list (option JSVal)) : JSVal :=
  JObj [ ("type", JStr "ArrayLiteral"); ("ElementList", JArr elements) ].

Definition ObjectLiteral (properties : list (option JSVal)) : JSVal :=
  JObj [ ("type", JStr "ObjectLiteral");
         ("PropertyDefinitionList", JArr properties) ].

Definition PropertyDefinition (name value : JSVal) : JSVal :=
  JObj [ ("type", JStr "PropertyDefinition");
         ("PropertyName", name);
         ("AssignmentExpression", value) ].

Definition CoverInitializedName (id init : JSVal) : JSVal :=
  JObj [ ("type", JStr "CoverInitializedName");
         ("IdentifierReference", id);
         ("Initializer", init) ].

Definition AssignmentExpression (target : JSVal) (op : string) (source : JSVal)
  : JSVal :=
  JObj [ ("type", JStr "AssignmentExpression");
         ("LeftHandSideExpression", target);
         ("AssignmentOperator", JStr op);
         ("AssignmentExpression", source) ].

End Ast.

(** ** Values, references and completion records of the interpreted program *)

(** Instances of the engine's [Value] class; [Value.undefined],
    [Value.null], [Value.true] and [Value.false] are its singletons. *)
Inductive Value : Type :=
| Value_undefined
| Value_null
| Value_true
| Value_false
| Value_number (n : Z)
| Value_string (s : string)
| Value_object (id : nat).

(** What the evaluation of an expression yields when it completes normally:
    a language value or a reference to a binding. *)
Inductive Operand : Type :=
| Val (v : Value)
| Ref (base : Value) (name : string).

Inductive CompletionType : Type :=
| throw | return_ | break | continue.

(** A completion record.  The engine's operations hand back either a bare
    result or a [NormalCompletion] wrapping it, and its macros treat the
    two alike; both are [NormalCompletion] here. *)
Inductive Completion : Type :=
| NormalCompletion (value : Operand)
| AbruptCompletion (type : CompletionType) (value : Value) (target : option string).

Definition is_abrupt (c : Completion) : bool :=
  match c with
  | AbruptCompletion _ _ _ => true
  | NormalCompletion _ => false
  end.

(** How a call of the generator ends: it returns a completion record, or a
    host exception escapes from it. *)
Inductive Outcome : Type :=
| Returned (c : Completion)
| Thrown (e : HostError).

(** ** The operations the generator imports *)

(** One constructor per imported operation, with the arguments of the call.
    [Evaluate], [NamedEvaluation] and [DestructuringAssignmentEvaluation]
    are generators delegated to with [yield*]. *)
Inductive Call : Type :=
| Evaluate (node : JSVal)
| NamedEvaluation (node : JSVal) (name : Value)
| DestructuringAssignmentEvaluation (pattern : JSVal) (value : Operand)
| GetValue (V : Completion)
| PutValue (V W : Completion)
| ToBoolean (argument : Operand)
| GetReferencedName (V : Operand)
| IsAnonymousFunctionDefinition (node : JSVal)
| IsIdentifierRef (node : JSVal)
| ApplyStringOrNumericBinaryOperator (lval : Operand) (opText : JSVal) (rval : Operand).

(** The type of what each operation hands back when it answers.  An
    operation can also throw a host exception instead: see [outcome_of]
    for the runs against such operations. *)
Definition answer (c : Call) : Type :=
  match c with
  | IsAnonymousFunctionDefinition _ | IsIdentifierRef _ => bool
  | GetReferencedName _ => Value
  | _ => Completion
  end.

(** A computation that calls imported operations and continues with their
    answers. *)
Inductive Gen (A : Type) : Type :=
| Ret (a : A)
| Vis (c : Call) (k : answer c -> Gen A).
Arguments Ret {A} a.
Arguments Vis {A} c k.

Notation "'call' x <- c 'in' k" := (Vis c (fun x => k))
  (at level 10, x name, c at level 100, k at level 200, only parsing).

(** The macros of [completion.mjs] inside a generator whose result is an
    [Outcome].  [Q] and [ReturnIfAbrupt] return an abrupt completion from the
    enclosing function and unwrap a normal one; [X] asserts that the
    completion is not abrupt. *)
Definition Q (c : Completion) (k : Operand -> Gen Outcome) : Gen Outcome :=
  match c with
  | AbruptCompletion _ _ _ => Ret (Returned c)
  | NormalCompletion v => k v
  end.

Definition ReturnIfAbrupt := Q.

Definition X (c : Completion) (k : Operand -> Gen Outcome) : Gen Outcome :=
  match c with
  | AbruptCompletion _ _ _ => Ret (Thrown AssertionError)
  | NormalCompletion v => k v
  end.

Notation "'Q!' x <- c 'in' k" := (Q c (fun x => k))
  (at level 10, x name, c at level 100, k at level 200, only parsing).
Notation "'X!' x <- c 'in' k" := (X c (fun x => k))
  (at level 10, x name, c at level 100, k at level 200, only parsing).

(** A host exception of a synchronous helper escapes from the generator. *)
Definition host {A} (m : Host A) (k : A -> Gen Outcome) : Gen Outcome :=
  match m with
  | Return a => k a
  | Throw e => Ret (Thrown e)
  end.

(** ** Evaluate_AssignmentExpression *)

(** The three fields the generator destructures from its argument. *)
Record AssignmentExpressionNode : Type := mkNode {
  LeftHandSideExpression : JSVal;
  AssignmentOperator : string;
  AssignmentExpression : JSVal
}.

(** The object literal of step 6 of the compound case. *)
Definition opText_table : JSVal :=
  JObj [ ("**=", JStr "**");
         ("*=", JStr "*");
         ("/=", JStr "/");
         ("%=", JStr "%");
         ("+=", JStr "+");
         ("-=", JStr "-");
         ("<<=", JStr "<<");
         (">>=", JStr ">>");
         (">>>=", JStr ">>>");
         ("&=", JStr "&");
         ("^=", JStr "^");
         ("|=", JStr "|") ].

Definition Evaluate_AssignmentExpression (n : AssignmentExpressionNode)
  : Gen Outcome :=
  let LeftHandSideExpression := n.(LeftHandSideExpression) in
  let AssignmentOperator := n.(AssignmentOperator) in
  let AssignmentExpression := n.(AssignmentExpression) in
  if String.eqb AssignmentOperator "=" then
    host (Get LeftHandSideExpression "type") (fun type =>
    if negb (type === "ObjectLiteral") && negb (type === "ArrayLiteral") then
      call lref <- Evaluate LeftHandSideExpression in
      ReturnIfAbrupt lref (fun lref =>
      let named :=
        call name <- GetReferencedName lref in
        call rval <- NamedEvaluation AssignmentExpression name in
        call stored <- PutValue (NormalCompletion lref) rval in
        Q! _ <- stored in
        Ret (Returned rval) in
      let plain :=
        call rref <- Evaluate AssignmentExpression in
        call got <- GetValue rref in
        Q! rval <- got in
        call stored <- PutValue (NormalCompletion lref) (NormalCompletion rval) in
        Q! _ <- stored in
        Ret (Returned (NormalCompletion rval)) in
      call anonymous <- IsAnonymousFunctionDefinition AssignmentExpression in
      if anonymous then
        call identifier <- IsIdentifierRef LeftHandSideExpression in
        if identifier then named else plain
      else plain)
    else
      host (refineLeftHandSideExpression LeftHandSideExpression)
        (fun assignmentPattern =>
      call rref <- Evaluate AssignmentExpression in
      call got <- GetValue rref in
      Q! rval <- got in
      call done <- DestructuringAssignmentEvaluation assignmentPattern rval in
      Q! _ <- done in
      Ret (Returned (NormalCompletion rval))))
  else if String.eqb AssignmentOperator "&&=" then
    call lref <- Evaluate LeftHandSideExpression in
    call got <- GetValue lref in
    Q! lval <- got in
    call coerced <- ToBoolean lval in
    X! lbool <- coerced in
    match lbool with
    | Val Value_false => Ret (Returned (NormalCompletion lval))
    | _ =>
        call rref <- Evaluate AssignmentExpression in
        call got <- GetValue rref in
        Q! rval <- got in
        call stored <- PutValue lref (NormalCompletion rval) in
        Q! _ <- stored in
        Ret (Returned (NormalCompletion rval))
    end
  else if String.eqb AssignmentOperator "||=" then
    call lref <- Evaluate LeftHandSideExpression in
    call got <- GetValue lref in
    Q! lval <- got in
    call coerced <- ToBoolean lval in
    X! lbool <- coerced in
    match lbool with
    | Val Value_true => Ret (Returned (NormalCompletion lval))
    | _ =>
        call rref <- Evaluate AssignmentExpression in
        call got <- GetValue rref in
        Q! rval <- got in
        call stored <- PutValue lref (NormalCompletion rval) in
        Q! _ <- stored in
        Ret (Returned (NormalCompletion rval))
    end
  else if String.eqb AssignmentOperator "??=" then
    call lref <- Evaluate LeftHandSideExpression in
    call got <- GetValue lref in
    Q! lval <- got in
    match lval with
    | Val Value_undefined | Val Value_null =>
        call rref <- Evaluate AssignmentExpression in
        call got <- GetValue rref in
        Q! rval <- got in
        call stored <- PutValue lref (NormalCompletion rval) in
        Q! _ <- stored in
        Ret (Returned (NormalCompletion rval))
    | _ => Ret (Returned (NormalCompletion lval))
    end
  else
    call lref <- Evaluate LeftHandSideExpression in
    call got <- GetValue lref in
    Q! lval <- got in
    call rref <- Evaluate AssignmentExpression in
    call got' <- GetValue rref in
    Q! rval <- got' in
    let assignmentOpText := AssignmentOperator in
    host (Get opText_table assignmentOpText) (fun opText =>
    call r <- ApplyStringOrNumericBinaryOperator lval opText rval in
    call stored <- PutValue lref r in
    Q! _ <- stored in
    Ret (Returned r)).

(** The twelve compound tokens of the grammar. *)
Definition compound_tokens : list string :=
  [ "**="; "*="; "/="; "%="; "+="; "-="; "<<="; ">>="; ">>>="; "&="; "^="; "|=" ].

(** The tokens with a branch of their own; every other token falls into the
    final [else]. *)
Definition has_own_branch (op : string) : bool :=
  String.eqb op "=" || String.eqb op "&&=" || String.eqb op "||="
  || String.eqb op "??=".

(** ** A small engine

    An implementation of the imported operations over a global environment
    of bindings, enough to run the generator on concrete programs.
    [GetValue] and [PutValue] begin, as in ECMA-262, by handing back an
    abrupt argument. *)

Module Sample.

Definition World : Type := list (string * Value).

Definition global : Value := Value_object 0.

Definition ReferenceError : Completion :=
  AbruptCompletion throw (Value_string "ReferenceError") None.

Definition TypeError_completion : Completion :=
  AbruptCompletion throw (Value_string "TypeError") None.

Fixpoint lookup (name : string) (w : World) : option Value :=
  match w with
  | [] => None
  | (k, v) :: rest => if String.eqb name k then Some v else lookup name rest
  end.

Definition node_type (node : JSVal) : JSVal :=
  match Get node "type" with
  | Return t => t
  | Throw _ => JUndefined
  end.

Definition node_text (node : JSVal) (field : string) : string :=
  match Get node field with
  | Return (JStr s) => s
  | _ => ""
  end.

Definition StringLiteral (text : string) : JSVal :=
  JObj [ ("type", JStr "StringLiteral"); ("value", JStr text) ].

Definition NullLiteral : JSVal :=
  JObj [ ("type", JStr "NullLiteral") ].

Definition FunctionExpression : JSVal :=
  JObj [ ("type", JStr "FunctionExpression"); ("BindingIdentifier", JNull) ].

(** An expression with a side effect, such as [(name = "value", "result")]:
    it rebinds [name] and evaluates to the string [result]. *)
Definition Rebinding (name value result : string) : JSVal :=
  JObj [ ("type", JStr "Rebinding"); ("name", JStr name);
         ("value", JStr value); ("result", JStr result) ].

Definition evaluate (node : JSVal) (w : World) : Completion * World :=
  let type := node_type node in
  if type === "IdentifierReference" then
    (NormalCompletion (Ref global (node_text node "name")), w)
  else if type === "StringLiteral" then
    (NormalCompletion (Val (Value_string (node_text node "value"))), w)
  else if type === "NullLiteral" then
    (NormalCompletion (Val Value_null), w)
  else if type === "FunctionExpression" then
    (NormalCompletion (Val (Value_object 1)), w)
  else if type === "ObjectLiteral" then
    (NormalCompletion (Val (Value_object 2)), w)
  else if type === "Rebinding" then
    (NormalCompletion (Val (Value_string (node_text node "result"))),
     (node_text node "name", Value_string (node_text node "value")) :: w)
  else (AbruptCompletion throw (Value_string "SyntaxError") None, w).

Definition get_value (V : Completion) (w : World) : Completion :=
  match V with
  | AbruptCompletion _ _ _ => V
  | NormalCompletion (Val _) => V
  | NormalCompletion (Ref _ name) =>
      match lookup name w with
      | Some v => NormalCompletion (Val v)
      | None => ReferenceError
      end
  end.

Definition put_value (V W : Completion) (w : World) : Completion * World :=
  match V, W with
  | AbruptCompletion _ _ _, _ => (V, w)
  | _, AbruptCompletion _ _ _ => (W, w)
  | NormalCompletion (Ref _ name), NormalCompletion (Val v) =>
      (NormalCompletion (Val Value_undefined), (name, v) :: w)
  | _, _ => (ReferenceError, w)
  end.

Definition to_boolean (x : Operand) : Value :=
  match x with
  | Val Value_undefined | Val Value_null | Val Value_false => Value_false
  | Val (Value_number n) => if Z.eqb n 0 then Value_false else Value_true
  | Val (Value_string s) => if String.eqb s "" then Value_false else Value_true
  | _ => Value_true
  end.

(** Addition of numbers and concatenation of strings; any other use of an
    operator is a [TypeError]. *)
Definition apply_operator (lval : Operand) (opText : JSVal) (rval : Operand)
  : Completion :=
  if opText === "+" then
    match lval, rval with
    | Val (Value_number a), Val (Value_number b) =>
        NormalCompletion (Val (Value_number (a + b)))
    | Val (Value_string a), Val (Value_string b) =>
        NormalCompletion (Val (Value_string (a ++ b)))
    | _, _ => TypeError_completion
    end
  else TypeError_completion.

Definition engine (c : Call) : World -> answer c * World :=
  match c as c0 return World -> answer c0 * World with
  | Evaluate node => evaluate node
  | NamedEvaluation node name => evaluate node
  | DestructuringAssignmentEvaluation pattern value => fun w =>
      match value with
      | Val Value_undefined | Val Value_null => (TypeError_completion, w)
      | _ => (NormalCompletion (Val Value_undefined), w)
      end
  | GetValue V => fun w => (get_value V w, w)
  | PutValue V W => put_value V W
  | ToBoolean argument => fun w => (NormalCompletion (Val (to_boolean argument)), w)
  | GetReferencedName V => fun w =>
      (match V with
       | Ref _ name => Value_string name
       | Val v => v
       end, w)
  | IsAnonymousFunctionDefinition node => fun w =>
      (node_type node === "FunctionExpression", w)
  | IsIdentifierRef node => fun w =>
      (node_type node === "IdentifierReference", w)
  | ApplyStringOrNumericBinaryOperator lval opText rval => fun w =>
      (apply_operator lval opText rval, w)
  end.

(** The same engine with a [PutValue] that writes what it is given through
    the reference without looking at it first. *)
Definition completion_value (c : Completion) : Value :=
  match c with
  | NormalCompletion (Val v) => v
  | NormalCompletion (Ref _ _) => Value_undefined
  | AbruptCompletion _ v _ => v
  end.

Definition engine_plain_store (c : Call) : World -> answer c * World :=
  match c as c0 return World -> answer c0 * World with
  | PutValue V W => fun w =>
      match V with
      | NormalCompletion (Ref _ name) =>
          (NormalCompletion (Val Value_undefined), (name, completion_value W) :: w)
      | _ => (ReferenceError, w)
      end
  | c0 => engine c0
  end.

(** The same engine with a [ToBoolean] that completes abruptly. *)
Definition engine_abrupt_coercion (c : Call) : World -> answer c * World :=
  match c as c0 return World -> answer c0 * World with
  | ToBoolean _ => fun w => (TypeError_completion, w)
  | c0 => engine c0
  end.

End Sample.

(** Programs and states for the small engine. *)
Module Programs.

Import Ast.

Definition a : JSVal := IdentifierReference "a".
Definition b : JSVal := IdentifierReference "b".

(** [a += b] *)
Definition add_assign : AssignmentExpressionNode := mkNode a "+=" b.

(** [a += (a = "z", "y")] *)
Definition add_assign_rebinding : AssignmentExpressionNode :=
  mkNode a "+=" (Sample.Rebinding "a" "z" "y").

(** [a &&= "s"] *)
Definition and_assign : AssignmentExpressionNode :=
  mkNode a "&&=" (Sample.StringLiteral "s").

(** [a ||= "s"] *)
Definition or_assign : AssignmentExpressionNode :=
  mkNode a "||=" (Sample.StringLiteral "s").

(** [a ??= "s"] *)
Definition coalesce_assign : AssignmentExpressionNode :=
  mkNode a "??=" (Sample.StringLiteral "s").

(** [a = "s"] *)
Definition plain_assign : AssignmentExpressionNode :=
  mkNode a "=" (Sample.StringLiteral "s").

(** [a = function () {}] *)
Definition function_assign : AssignmentExpressionNode :=
  mkNode a "=" Sample.FunctionExpression.

(** [[] = "s"] *)
Definition empty_pattern_assign : AssignmentExpressionNode :=
  mkNode (ArrayLiteral []) "=" (Sample.StringLiteral "s").

(** The element list of an array literal [[a, , b]] with an empty slot, and
    the properties of that literal. *)
Definition sparse_slots : list (option JSVal) := [ Some a; None; Some b ].

Definition sparse_props : list (string * JSVal) :=
  [ ("type", JStr "ArrayLiteral"); ("ElementList", JArr sparse_slots) ].

(** [f() = "s"], with a target whose evaluation the small engine throws
    on. *)
Definition call_assign : AssignmentExpressionNode :=
  mkNode (JObj [ ("type", JStr "CallExpression") ]) "=" (Sample.StringLiteral "s").


(** The spread property [...r] of an object literal. *)
Definition spread (name : string) : JSVal :=
  PropertyDefinition JNull (IdentifierReference name).

(** The properties of [{...r, a, ...s, b}] and of the literal itself. *)
Definition spread_slots : list (option JSVal) :=
  [ Some (spread "r"); Some a; Some (spread "s"); Some b ].

Definition spread_props : list (string * JSVal) :=
  [ ("type", JStr "ObjectLiteral");
    ("PropertyDefinitionList", JArr spread_slots) ].

(** The properties of [[a, , b]] written with an [Elision] node. *)
Definition elision_props : list (string * JSVal) :=
  [ ("type", JStr "ArrayLiteral");
    ("ElementList", JArr ([ Some a ] ++ Some Elision :: [ Some b ])) ].

Definition strings : Sample.World :=
  [ ("a", Value_string "x"); ("b", Value_string "y") ].

Definition objects : Sample.World :=
  [ ("a", Value_object 7); ("b", Value_object 8) ].

Definition empty_string : Sample.World := [ ("a", Value_string "") ].

Definition nothing : Sample.World := [ ("a", Value_undefined) ].

End Programs.

(** The answer to a call, when it is a completion record. *)
Definition as_completion (c : Call) : answer c -> option Completion :=
  match c as c0 return answer c0 -> option Completion with
  | Evaluate _ => fun x => Some x
  | NamedEvaluation _ _ => fun x => Some x
  | DestructuringAssignmentEvaluation _ _ => fun x => Some x
  | GetValue _ => fun x => Some x
  | PutValue _ _ => fun x => Some x
  | ToBoolean _ => fun x => Some x
  | ApplyStringOrNumericBinaryOperator _ _ _ => fun x => Some x
  | GetReferencedName _ => fun _ => None
  | IsAnonymousFunctionDefinition _ => fun _ => None
  | IsIdentifierRef _ => fun _ => None
  end.

Definition is_ToBoolean (c : Call) : bool :=
  match c with
  | ToBoolean _ => true
  | _ => false
  end.

Definition is_evaluation (c : Call) : bool :=
  match c with
  | Evaluate _ | NamedEvaluation _ _ => true
  | _ => false
  end.


(** ** Running the generator against an engine *)

Section Run.

(** The state of the surrounding engine and its implementation of the
    imported operations. *)
Variable World : Type.
Variable engine : forall c : Call, World -> answer c * World.

(** Runs [g]: the result, the final state and the calls made, in order. *)
Fixpoint run {A} (g : Gen A) (w : World) : A * World * list Call :=
  match g with
  | Ret a => (a, w, [])
  | Vis c k =>
      let (x, w1) := engine c w in
      let '(a, w2, calls) := run (k x) w1 in
      (a, w2, c :: calls)
  end.

Definition result {A} (g : Gen A) (w : World) : A := fst (fst (run g w)).
Definition final {A} (g : Gen A) (w : World) : World := snd (fst (run g w)).
Definition trace {A} (g : Gen A) (w : World) : list Call := snd (run g w).

Definition is_false (x : Operand) : bool :=
  match x with
  | Val Value_false => true
  | _ => false
  end.

Definition is_true (x : Operand) : bool :=
  match x with
  | Val Value_true => true
  | _ => false
  end.

Definition is_nullish (x : Operand) : bool :=
  match x with
  | Val Value_undefined | Val Value_null => true
  | _ => false
  end.

(** From the spec (4.3, case 3): "evaluate the source, dereference, store
    into the target reference, return the stored value", an abrupt
    completion of a step being returned at once.  The result, the final
    state and the calls made. *)
Definition evaluate_store_return (lref : Completion) (source : JSVal)
  (w : World) : Outcome * World * list Call :=
  let (rref, w1) := engine (Evaluate source) w in
  let (got, w2) := engine (GetValue rref) w1 in
  match got with
  | AbruptCompletion _ _ _ =>
      (Returned got, w2, [ Evaluate source; GetValue rref ])
  | NormalCompletion rval =>
      let (stored, w3) := engine (PutValue lref (NormalCompletion rval)) w2 in
      (Returned (if is_abrupt stored then stored else NormalCompletion rval),
       w3,
       [ Evaluate source; GetValue rref;
         PutValue lref (NormalCompletion rval) ])
  end.

(** From the spec (4.3, case 3): the short-circuit test on the current
    value [lval] of the target.  [&&=] stops on a value that coerces to
    false, [||=] on one that coerces to true, and [??=], which coerces
    nothing, on one that is neither [undefined] nor [null].  The answer is
    whether to stop, with the state after the test and the calls it made;
    there is none when the coercion completes abruptly. *)
Definition short_circuit_test (op : string) (lval : Operand) (w : World)
  : option (bool * World * list Call) :=
  if String.eqb op "??=" then Some (negb (is_nullish lval), w, [])
  else
    let (coerced, w1) := engine (ToBoolean lval) w in
    match coerced with
    | AbruptCompletion _ _ _ => None
    | NormalCompletion lbool =>
        Some (if String.eqb op "&&=" then is_false lbool else is_true lbool,
              w1, [ ToBoolean lval ])
    end.

(** The completion records among the answers given to the calls of a run,
    in order. *)
Fixpoint answers {A} (g : Gen A) (w : World) : list Completion :=
  match g with
  | Ret _ => []
  | Vis c k =>
      let (x, w1) := engine c w in
      match as_completion c x with
      | Some completion => completion :: answers (k x) w1
      | None => answers (k x) w1
      end
  end.

End Run.

Arguments run {World} engine {A} g w.
Arguments result {World} engine {A} g w.
Arguments final {World} engine {A} g w.
Arguments trace {World} engine {A} g w.
Arguments evaluate_store_return {World} engine lref source w.
Arguments short_circuit_test {World} engine op lval w.
Arguments answers {World} engine {A} g w.

(** ** Operations that throw

    An imported operation can also throw a host exception instead of
    answering.  The generator has no [try] block: the exception leaves it
    at that call, and nothing is called after. *)

Section Throwing.

Variable World : Type.
Variable engine : forall c : Call, World -> Host (answer c) * World.

(** What the evaluation ends with. *)
Fixpoint outcome_of (g : Gen Outcome) (w : World) : Outcome :=
  match g with
  | Ret a => a
  | Vis c k =>
      match engine c w with
      | (Return x, w1) => outcome_of (k x) w1
      | (Throw e, _) => Thrown e
      end
  end.

(** The calls made, in order. *)
Fixpoint calls_of (g : Gen Outcome) (w : World) : list Call :=
  match g with
  | Ret _ => []
  | Vis c k =>
      c :: match engine c w with
           | (Return x, w1) => calls_of (k x) w1
           | (Throw _, _) => []
           end
  end.

(** The call that threw, with its exception, if one did. *)
Fixpoint thrown_by (g : Gen Outcome) (w : World) : option (Call * HostError) :=
  match g with
  | Ret _ => None
  | Vis c k =>
      match engine c w with
      | (Return x, w1) => thrown_by (k x) w1
      | (Throw e, _) => Some (c, e)
      end
  end.

End Throwing.

Arguments outcome_of {World} engine g w.
Arguments calls_of {World} engine g w.
Arguments thrown_by {World} engine g w.

(** An engine whose operations all answer. *)
Definition returning {World : Type}
  (engine : forall c : Call, World -> answer c * World)
  (c : Call) (w : World) : Host (answer c) * World :=
  (Return (fst (engine c w)), snd (engine c w)).

(** The small engine with an operator that throws when its operator text
    is no string. *)
Definition engine_strict_operator (c : Call)
  : Sample.World -> Host (answer c) * Sample.World :=
  match c as c0 return Sample.World -> Host (answer c0) * Sample.World with
  | ApplyStringOrNumericBinaryOperator lval opText rval => fun w =>
      match opText with
      | JStr _ => (Return (Sample.apply_operator lval opText rval), w)
      | _ => (Throw (OutOfRange "ApplyStringOrNumericBinaryOperator" opText), w)
      end
  | c0 => returning Sample.engine c0
  end.

(** ** Vocabulary of the statements *)

Definition own_keys (o : JSVal) : list string :=
  match o with
  | JObj props => map fst props
  | _ => []
  end.

(** What [{ ... }[assignmentOpText]] evaluates to; the lookup in an object
    literal does not throw. *)
Definition opText_of (op : string) : JSVal :=
  match Get opText_table op with
  | Return opText => opText
  | Throw _ => JUndefined
  end.

(** The node types the [switch] of the refiner has a case for. *)
Definition handled_types : list string :=
  [ "ArrayLiteral"; "ObjectLiteral"; "PropertyDefinition";
    "IdentifierReference"; "CoverInitializedName"; "AssignmentExpression" ].

(** The target of [=] is an object or array literal. *)
Definition is_literal (type : JSVal) : bool :=
  (type === "ObjectLiteral") || (type === "ArrayLiteral").

(** The calls that store: [PutValue], and for a pattern the destructuring
    evaluator, which performs the assignments of the pattern.  Each comes
    with the value it is asked to store. *)
Definition stored_value (c : Call) : option Completion :=
  match c with
  | PutValue _ W => Some W
  | DestructuringAssignmentEvaluation _ value => Some (NormalCompletion value)
  | _ => None
  end.

(** The values passed to the store operations of a run, in order. *)
Fixpoint stores (calls : list Call) : list Completion :=
  match calls with
  | [] => []
  | c :: rest =>
      match stored_value c with
      | Some W => W :: stores rest
      | None => stores rest
      end
  end.

(** Characters of identifiers; an operator token has none. *)
Definition identifier_char (c : Ascii.ascii) : bool :=
  let n := Ascii.nat_of_ascii c in
  ((65 <=? n) && (n <=? 90) || (97 <=? n) && (n <=? 122)
   || (48 <=? n) && (n <=? 57) || (n =? 95) || (n =? 36))%nat.

(** The text of a punctuator, as the tokens of the assignment operators
    are. *)
Definition operator_token (text : string) : bool :=
  forallb (fun c => negb (identifier_char c)) (list_ascii_of_string text).

(** The generator returned an abrupt completion, or threw. *)
Definition is_abrupt_outcome (o : Outcome) : bool :=
  match o with
  | Returned c => is_abrupt c
  | Thrown _ => true
  end.

(** The ways an absent array element can be present in an element list. *)
Definition absent_element (x : JSVal) : Prop :=
  x = JUndefined \/ x = JNull \/ x = Ast.Elision.

(** The tag of the pattern built for a node of a handled type. *)
Definition pattern_tag (type : string) : string :=
  if String.eqb type "ArrayLiteral" then "ArrayAssignmentPattern"
  else if String.eqb type "ObjectLiteral" then "ObjectAssignmentPattern"
  else if String.eqb type "AssignmentExpression" then "AssignmentElement"
  else "AssignmentProperty".

(** The elements present in a list of slots, in order. *)
Fixpoint present (slots : list (option JSVal)) : list JSVal :=
  match slots with
  | [] => []
  | Some x :: rest => x :: present rest
  | None :: rest => present rest
  end.

(** The target of a property that the [ObjectLiteral] case takes for the
    rest property: its [PropertyName] is [null] and its
    [AssignmentExpression] is truthy. *)
Definition rest_target (p : JSVal) : option JSVal :=
  match Get p "PropertyName", Get p "AssignmentExpression" with
  | Return JNull, Return value => if truthy value then Some value else None
  | _, _ => None
  end.

Definition is_rest (p : JSVal) : bool :=
  match rest_target p with
  | Some _ => true
  | None => false
  end.

(** The target of the last rest property of a list, [current] when the
    list has none. *)
Fixpoint last_rest (current : option JSVal) (ps : list JSVal) : option JSVal :=
  match ps with
  | [] => current
  | p :: rest =>
      last_rest (match rest_target p with
                 | Some value => Some value
                 | None => current
                 end) rest
  end.

Definition AssignmentRestProperty_object (target : JSVal) : JSVal :=
  JObj [ ("type", JStr "AssignmentRestProperty");
         ("DestructuringAssignmentTarget", target) ].

(** What reading the field [k] of a node gives, for a [k] that names no
    member of [Object.prototype]: the own property, and [undefined] when
    the node has none. *)
Definition field_of (props : list (string * JSVal)) (k : string) : JSVal :=
  match own k props with
  | Some v => v
  | None => JUndefined
  end.

(** The sentences of the specification that the code does not bear out,
    as they are written. *)
Module Stated.


(** C4: an array literal whose elements are absent or refinable is refined
    without a fault. *)
Definition holes_pass_through (slots : list (option JSVal)) : Prop :=
  (forall x, In (Some x) slots ->
             absent_element x \/ exists y, refineLeftHandSideExpression x = Return y) ->
  exists pattern,
    refineLeftHandSideExpression (Ast.ArrayLiteral slots) = Return pattern.

(** C9: for a token that is none of the twelve and has no branch of its
    own, the table lookup gives [undefined]. *)
Definition unknown_token_reads_undefined (op : string) : Prop :=
  has_own_branch op = false ->
  ~ In op compound_tokens ->
  Get opText_table op = Return JUndefined.

End Stated.

(** ** The table of compound operators *)

Lemma Get_opText_table (op : string) :
  Get opText_table op = Return (opText_of op).
Proof.
  unfold opText_of, Get, opText_table.
  destruct (own op _); reflexivity.
Qed.

Lemma has_own_branch_false (op : string) :
  has_own_branch op = false ->
  String.eqb op "=" = false /\ String.eqb op "&&=" = false /\
  String.eqb op "||=" = false /\ String.eqb op "??=" = false.
Proof.
  unfold has_own_branch. intros H.
  repeat (apply orb_false_iff in H; destruct H as [H ?]). auto.
Qed.

Lemma compound_token_branch (op : string) :
  In op compound_tokens ->
  has_own_branch op = false /\ exists symbol, opText_of op = JStr symbol.
Proof.
  unfold compound_tokens. intros H.
  repeat (destruct H as [<- | H];
          [ split; [ reflexivity | eexists; reflexivity ] | ]).
  destruct H.
Qed.

Lemma other_token_inherits (op : string) :
  ~ In op compound_tokens -> opText_of op = inherited op.
Proof.
  intros H. unfold opText_of, Get, opText_table. cbn [own].
  repeat match goal with
         | |- context [String.eqb op ?t] =>
             destruct (String.eqb_spec op t) as [-> | _];
             [ exfalso; apply H; unfold compound_tokens; cbn; tauto | ]
         end.
  reflexivity.
Qed.

(** No member of [Object.prototype] has the text of a punctuator for its
    name. *)
Lemma operator_token_not_inherited (op : string) :
  operator_token op = true -> mem op Object_prototype_keys = false.
Proof.
  intros Htoken. destruct (mem op Object_prototype_keys) eqn:Hmem;
    [ | reflexivity ].
  unfold mem in Hmem. apply existsb_exists in Hmem.
  destruct Hmem as (key & Hin & Heq). apply String.eqb_eq in Heq. subst key.
  unfold Object_prototype_keys in Hin.
  repeat (destruct Hin as [<- | Hin]; [ discriminate Htoken | ]).
  destruct Hin.
Qed.

(** A name that is inherited, on the other hand, is read from the
    prototype. *)
Remark inherited_name_is_read :
  Get opText_table "toString" = Return (JInherited "toString").
Proof. reflexivity. Qed.

(** C7.  The table of step 6 has the twelve compound tokens, all distinct,
    as its keys, and each token reads as its operator: the token without
    its final [=]. *)
Theorem opText_table_is_exact :
  own_keys opText_table = compound_tokens
  /\ NoDup compound_tokens
  /\ Get opText_table "**=" = Return (JStr "**")
  /\ Get opText_table "*=" = Return (JStr "*")
  /\ Get opText_table "/=" = Return (JStr "/")
  /\ Get opText_table "%=" = Return (JStr "%")
  /\ Get opText_table "+=" = Return (JStr "+")
  /\ Get opText_table "-=" = Return (JStr "-")
  /\ Get opText_table "<<=" = Return (JStr "<<")
  /\ Get opText_table ">>=" = Return (JStr ">>")
  /\ Get opText_table ">>>=" = Return (JStr ">>>")
  /\ Get opText_table "&=" = Return (JStr "&")
  /\ Get opText_table "^=" = Return (JStr "^")
  /\ Get opText_table "|=" = Return (JStr "|").
Proof.
  split; [ reflexivity | ]. split; [ | repeat split ].
  unfold compound_tokens.
  repeat (constructor;
          [ cbn; intros H;
            repeat (destruct H as [H | H]; [ discriminate H | ]); exact H | ]).
  constructor.
Qed.

(** ** Runs of the generator *)

Section Runs.

Variable World : Type.
Variable engine : forall c : Call, World -> answer c * World.

Lemma run_eq {A} (g : Gen A) (w : World) :
  run engine g w = (result engine g w, final engine g w, trace engine g w).
Proof.
  unfold result, final, trace. destruct (run engine g w) as [[? ?] ?].
  reflexivity.
Qed.

Lemma result_Vis {A} c (k : answer c -> Gen A) w :
  result engine (Vis c k) w =
    result engine (k (fst (engine c w))) (snd (engine c w)).
Proof.
  unfold result. cbn [run]. destruct (engine c w) as [x w1].
  cbn [fst snd]. destruct (run engine (k x) w1) as [[? ?] ?]. reflexivity.
Qed.

Lemma final_Vis {A} c (k : answer c -> Gen A) w :
  final engine (Vis c k) w =
    final engine (k (fst (engine c w))) (snd (engine c w)).
Proof.
  unfold final. cbn [run]. destruct (engine c w) as [x w1].
  cbn [fst snd]. destruct (run engine (k x) w1) as [[? ?] ?]. reflexivity.
Qed.

Lemma trace_Vis {A} c (k : answer c -> Gen A) w :
  trace engine (Vis c k) w =
    c :: trace engine (k (fst (engine c w))) (snd (engine c w)).
Proof.
  unfold trace. cbn [run]. destruct (engine c w) as [x w1].
  cbn [fst snd]. destruct (run engine (k x) w1) as [[? ?] ?]. reflexivity.
Qed.

Lemma result_Ret {A} (a : A) w : result engine (Ret a) w = a.
Proof. reflexivity. Qed.

Lemma final_Ret {A} (a : A) w : final engine (Ret a) w = w.
Proof. reflexivity. Qed.

Lemma trace_Ret {A} (a : A) w : trace engine (Ret a) w = [].
Proof. reflexivity. Qed.

(** One step of a run: past the macros, then past the next call. *)
Ltac forward :=
  unfold ReturnIfAbrupt;
  cbn [host Q X fst snd
       LeftHandSideExpression AssignmentOperator AssignmentExpression];
  rewrite ?result_Vis, ?final_Vis, ?trace_Vis,
          ?result_Ret, ?final_Ret, ?trace_Ret.

Ltac answer_with H := forward; rewrite ?H; forward.

(** Case analysis on the answer to the next call. *)
Ltac ask :=
  forward;
  match goal with
  | |- context [engine ?c ?w] =>
      let x := fresh "x" in
      let E := fresh "E" in
      destruct (engine c w) as [x ?] eqn:E
  end;
  forward.

Ltac ask_case :=
  forward;
  match goal with
  | |- context [engine ?c ?w] =>
      let x := fresh "x" in
      let E := fresh "E" in
      destruct (engine c w) as [x ?] eqn:E; destruct x
  end;
  forward.

Lemma not_literal type :
  is_literal type = false ->
  negb (type === "ObjectLiteral") && negb (type === "ArrayLiteral") = true.
Proof.
  unfold is_literal. intros H. apply orb_false_iff in H.
  destruct H as [-> ->]. reflexivity.
Qed.

(** The end of a run that goes through "evaluate the source, GetValue,
    PutValue, return", against [evaluate_store_return]. *)
Ltac through_source :=
  unfold evaluate_store_return;
  ask; ask_case; [ | reflexivity ];
  ask_case; reflexivity.

Lemma evaluate_store_return_normal lref source w v :
  fst (fst (evaluate_store_return engine lref source w))
    = Returned (NormalCompletion v) ->
  snd (evaluate_store_return engine lref source w) =
    [ Evaluate source; GetValue (fst (engine (Evaluate source) w));
      PutValue lref (NormalCompletion v) ].
Proof.
  unfold evaluate_store_return.
  destruct (engine (Evaluate source) w) as [rref w1].
  destruct (engine (GetValue rref) w1) as [got w2].
  destruct got as [rval | ? ? ?]; [ | cbn; discriminate ].
  destruct (engine (PutValue lref (NormalCompletion rval)) w2) as [stored w3].
  destruct stored; cbn; [ | discriminate ].
  intros [= ->]. reflexivity.
Qed.

(** The final [else] on a run whose operands are both read normally. *)
Lemma run_compound n w lref w1 lval w2 rref w3 rval w4 r w5 stored w6 :
  has_own_branch n.(AssignmentOperator) = false ->
  engine (Evaluate n.(LeftHandSideExpression)) w = (lref, w1) ->
  engine (GetValue lref) w1 = (NormalCompletion lval, w2) ->
  engine (Evaluate n.(AssignmentExpression)) w2 = (rref, w3) ->
  engine (GetValue rref) w3 = (NormalCompletion rval, w4) ->
  engine (ApplyStringOrNumericBinaryOperator
            lval (opText_of n.(AssignmentOperator)) rval) w4 = (r, w5) ->
  engine (PutValue lref r) w5 = (stored, w6) ->
  run engine (Evaluate_AssignmentExpression n) w =
    (Returned (if is_abrupt stored then stored else r), w6,
     [ Evaluate n.(LeftHandSideExpression); GetValue lref;
       Evaluate n.(AssignmentExpression); GetValue rref;
       ApplyStringOrNumericBinaryOperator
         lval (opText_of n.(AssignmentOperator)) rval;
       PutValue lref r ]).
Proof.
  intros Hop H1 H2 H3 H4 H5 H6.
  destruct (has_own_branch_false _ Hop) as (E1 & E2 & E3 & E4).
  rewrite run_eq. unfold Evaluate_AssignmentExpression.
  rewrite E1, E2, E3, E4, Get_opText_table.
  answer_with H1. answer_with H2. answer_with H3. answer_with H4.
  answer_with H5. answer_with H6.
  destruct stored; reflexivity.
Qed.

(** The three logical forms, from the short-circuit test on. *)
Lemma run_logical n w lref w1 lval w2 stop w3 test :
  In n.(AssignmentOperator) [ "&&="; "||="; "??=" ] ->
  engine (Evaluate n.(LeftHandSideExpression)) w = (lref, w1) ->
  engine (GetValue lref) w1 = (NormalCompletion lval, w2) ->
  short_circuit_test engine n.(AssignmentOperator) lval w2
    = Some (stop, w3, test) ->
  run engine (Evaluate_AssignmentExpression n) w =
    if stop then
      (Returned (NormalCompletion lval), w3,
       [ Evaluate n.(LeftHandSideExpression); GetValue lref ] ++ test)
    else
      let '(outcome, w', calls) :=
        evaluate_store_return engine lref n.(AssignmentExpression) w3 in
      (outcome, w',
       [ Evaluate n.(LeftHandSideExpression); GetValue lref ] ++ test ++ calls).
Proof.
  destruct n as [target op source].
  cbn [LeftHandSideExpression AssignmentOperator AssignmentExpression].
  intros Hop H1 H2 Ht.
  rewrite run_eq. unfold Evaluate_AssignmentExpression, short_circuit_test in *.
  cbn [LeftHandSideExpression AssignmentOperator AssignmentExpression].
  destruct Hop as [<- | [<- | [<- | []]]];
    cbn [String.eqb Ascii.eqb Bool.eqb] in *.
  - answer_with H1. answer_with H2.
    destruct (engine (ToBoolean lval) w2) as [coerced w'] eqn:E.
    cbv beta iota in Ht.
    destruct coerced as [lbool | ? ? ?]; [ | discriminate ].
    injection Ht as <- <- <-. forward.
    destruct lbool as [[] | ]; cbn [is_false]; forward; try reflexivity;
      through_source.
  - answer_with H1. answer_with H2.
    destruct (engine (ToBoolean lval) w2) as [coerced w'] eqn:E.
    cbv beta iota in Ht.
    destruct coerced as [lbool | ? ? ?]; [ | discriminate ].
    injection Ht as <- <- <-. forward.
    destruct lbool as [[] | ]; cbn [is_true]; forward; try reflexivity;
      through_source.
  - answer_with H1. answer_with H2.
    injection Ht as <- <- <-.
    destruct lval as [[] | ]; cbn [is_nullish negb]; forward; try reflexivity;
      through_source.
Qed.

(** Plain [=] with a target that is no literal, from the evaluation of
    the target on. *)
Lemma run_plain n w type lref w1 anonymous w2 identifier w3 :
  n.(AssignmentOperator) = "=" ->
  Get n.(LeftHandSideExpression) "type" = Return type ->
  is_literal type = false ->
  engine (Evaluate n.(LeftHandSideExpression)) w = (NormalCompletion lref, w1) ->
  engine (IsAnonymousFunctionDefinition n.(AssignmentExpression)) w1
    = (anonymous, w2) ->
  engine (IsIdentifierRef n.(LeftHandSideExpression)) w2 = (identifier, w3) ->
  let tests :=
    if anonymous
    then [ IsAnonymousFunctionDefinition n.(AssignmentExpression);
           IsIdentifierRef n.(LeftHandSideExpression) ]
    else [ IsAnonymousFunctionDefinition n.(AssignmentExpression) ] in
  let w4 := if anonymous then w3 else w2 in
  run engine (Evaluate_AssignmentExpression n) w =
    if anonymous && identifier then
      let (name, w5) := engine (GetReferencedName lref) w4 in
      let (rval, w6) :=
        engine (NamedEvaluation n.(AssignmentExpression) name) w5 in
      let (stored, w7) := engine (PutValue (NormalCompletion lref) rval) w6 in
      (Returned (if is_abrupt stored then stored else rval), w7,
       [ Evaluate n.(LeftHandSideExpression) ] ++ tests
       ++ [ GetReferencedName lref;
            NamedEvaluation n.(AssignmentExpression) name;
            PutValue (NormalCompletion lref) rval ])
    else
      let '(outcome, w', calls) :=
        evaluate_store_return engine (NormalCompletion lref)
          n.(AssignmentExpression) w4 in
      (outcome, w', [ Evaluate n.(LeftHandSideExpression) ] ++ tests ++ calls).
Proof.
  destruct n as [target op source].
  cbn [LeftHandSideExpression AssignmentOperator AssignmentExpression].
  intros -> Hty Hlit H1 H2 H3.
  rewrite run_eq. unfold Evaluate_AssignmentExpression.
  cbn [LeftHandSideExpression AssignmentOperator AssignmentExpression
       String.eqb Ascii.eqb Bool.eqb].
  rewrite Hty. cbn [host]. rewrite (not_literal _ Hlit).
  answer_with H1. answer_with H2.
  destruct anonymous; cbn [andb].
  - answer_with H3. destruct identifier.
    + ask. ask. ask_case; reflexivity.
    + through_source.
  - through_source.
Qed.

(** *** Compound assignment *)


(** C3.  A compound assignment evaluates its target and reads the
    target's value before anything else.  The source is evaluated next, in
    the state that reading left, and its value is read.  An abrupt reading
    is returned, and the run ends there, after these four calls.
    Otherwise the operator is applied to the value of the target as it was
    read before the source was evaluated and to the value read from the
    source, and what the operator answers is stored through the target's
    reference: the run is determined, to its result, its final state and
    its six calls. *)
Theorem compound_reads_target_before_source n w lref w1 lval w2 :
  In n.(AssignmentOperator) compound_tokens ->
  engine (Evaluate n.(LeftHandSideExpression)) w = (lref, w1) ->
  engine (GetValue lref) w1 = (NormalCompletion lval, w2) ->
  let (rref, w3) := engine (Evaluate n.(AssignmentExpression)) w2 in
  let (got, w4) := engine (GetValue rref) w3 in
  run engine (Evaluate_AssignmentExpression n) w =
    match got with
    | AbruptCompletion _ _ _ =>
        (Returned got, w4,
         [ Evaluate n.(LeftHandSideExpression); GetValue lref;
           Evaluate n.(AssignmentExpression); GetValue rref ])
    | NormalCompletion rval =>
        let (r, w5) :=
          engine (ApplyStringOrNumericBinaryOperator
                    lval (opText_of n.(AssignmentOperator)) rval) w4 in
        let (stored, w6) := engine (PutValue lref r) w5 in
        (Returned (if is_abrupt stored then stored else r), w6,
         [ Evaluate n.(LeftHandSideExpression); GetValue lref;
           Evaluate n.(AssignmentExpression); GetValue rref;
           ApplyStringOrNumericBinaryOperator
             lval (opText_of n.(AssignmentOperator)) rval;
           PutValue lref r ])
    end.
Proof.
  intros Hop H1 H2.
  apply compound_token_branch in Hop. destruct Hop as [Hop _].
  destruct (engine (Evaluate n.(AssignmentExpression)) w2) as [rref w3] eqn:H3.
  destruct (engine (GetValue rref) w3) as [got w4] eqn:H4.
  destruct got as [rval | kind value label].
  - destruct (engine (ApplyStringOrNumericBinaryOperator
                        lval (opText_of n.(AssignmentOperator)) rval) w4)
      as [r w5] eqn:H5.
    destruct (engine (PutValue lref r) w5) as [stored w6] eqn:H6.
    eapply run_compound; eassumption.
  - destruct (has_own_branch_false _ Hop) as (E1 & E2 & E3 & E4).
    rewrite run_eq. unfold Evaluate_AssignmentExpression.
    rewrite E1, E2, E3, E4, Get_opText_table.
    answer_with H1. answer_with H2. answer_with H3. answer_with H4.
    reflexivity.
Qed.

(** C9, as the code has it.  The evaluator validates no operator token: a
    token without a branch of its own goes through the final [else]
    whatever it is.  The lookup in the table does not throw, and once both
    operands are read the operator is called with what the lookup gives;
    its answer is stored and returned as for a compound token, in the same
    six calls.  For a token outside the twelve the lookup gives what the
    token names in [Object.prototype]: [undefined] when it names nothing
    there, as is the case of every punctuator, and the inherited member
    otherwise. *)
Theorem unknown_token_reaches_operator
  n w lref w1 lval w2 rref w3 rval w4 r w5 stored w6 :
  has_own_branch n.(AssignmentOperator) = false ->
  engine (Evaluate n.(LeftHandSideExpression)) w = (lref, w1) ->
  engine (GetValue lref) w1 = (NormalCompletion lval, w2) ->
  engine (Evaluate n.(AssignmentExpression)) w2 = (rref, w3) ->
  engine (GetValue rref) w3 = (NormalCompletion rval, w4) ->
  engine (ApplyStringOrNumericBinaryOperator
            lval (opText_of n.(AssignmentOperator)) rval) w4 = (r, w5) ->
  engine (PutValue lref r) w5 = (stored, w6) ->
  Get opText_table n.(AssignmentOperator)
    = Return (opText_of n.(AssignmentOperator))
  /\ run engine (Evaluate_AssignmentExpression n) w =
       (Returned (if is_abrupt stored then stored else r), w6,
        [ Evaluate n.(LeftHandSideExpression); GetValue lref;
          Evaluate n.(AssignmentExpression); GetValue rref;
          ApplyStringOrNumericBinaryOperator
            lval (opText_of n.(AssignmentOperator)) rval;
          PutValue lref r ])
  /\ (~ In n.(AssignmentOperator) compound_tokens ->
      (mem n.(AssignmentOperator) Object_prototype_keys = false ->
       opText_of n.(AssignmentOperator) = JUndefined)
      /\ (mem n.(AssignmentOperator) Object_prototype_keys = true ->
          opText_of n.(AssignmentOperator) = JInherited n.(AssignmentOperator))
      /\ (operator_token n.(AssignmentOperator) = true ->
          opText_of n.(AssignmentOperator) = JUndefined)).
Proof.
  intros Hop H1 H2 H3 H4 H5 H6.
  split; [ apply Get_opText_table | ].
  split; [ eapply run_compound; eassumption | ].
  intros Hnot. rewrite (other_token_inherits _ Hnot). unfold inherited.
  split; [ | split ].
  - intros ->. reflexivity.
  - intros ->. reflexivity.
  - intros Htoken. rewrite (operator_token_not_inherited _ Htoken).
    reflexivity.
Qed.

(** *** Logical assignment *)

(** C2.  A logical assignment evaluates its target, reads the target's
    value and applies the short-circuit test to it.  When the test says
    stop, the value read is returned and nothing else is called: the
    source is not evaluated and nothing is stored.  Otherwise the run
    goes on with exactly the steps "evaluate the source, dereference,
    store, return the stored value". *)
Theorem logical_assignment_short_circuits n w lref w1 lval w2 stop w3 test :
  In n.(AssignmentOperator) [ "&&="; "||="; "??=" ] ->
  engine (Evaluate n.(LeftHandSideExpression)) w = (lref, w1) ->
  engine (GetValue lref) w1 = (NormalCompletion lval, w2) ->
  short_circuit_test engine n.(AssignmentOperator) lval w2
    = Some (stop, w3, test) ->
  (test = [] \/ test = [ ToBoolean lval ])
  /\ (stop = true ->
      run engine (Evaluate_AssignmentExpression n) w =
        (Returned (NormalCompletion lval), w3,
         [ Evaluate n.(LeftHandSideExpression); GetValue lref ] ++ test))
  /\ (stop = false ->
      let rref := fst (engine (Evaluate n.(AssignmentExpression)) w3) in
      exists outcome w' stores,
        evaluate_store_return engine lref n.(AssignmentExpression) w3
          = (outcome, w',
             [ Evaluate n.(AssignmentExpression); GetValue rref ] ++ stores)
        /\ run engine (Evaluate_AssignmentExpression n) w =
             (outcome, w',
              [ Evaluate n.(LeftHandSideExpression); GetValue lref ] ++ test
              ++ [ Evaluate n.(AssignmentExpression); GetValue rref ] ++ stores)
        /\ (stores = []
            \/ exists rval,
                 stores = [ PutValue lref (NormalCompletion rval) ]
                 /\ (is_abrupt_outcome outcome = false ->
                     outcome = Returned (NormalCompletion rval)))).
Proof.
  intros Hop H1 H2 Ht.
  pose proof (run_logical n w _ _ _ _ _ _ _ Hop H1 H2 Ht) as Hrun.
  split; [ | split ].
  - unfold short_circuit_test in Ht.
    destruct (String.eqb n.(AssignmentOperator) "??=").
    + injection Ht as _ _ <-. auto.
    + destruct (engine (ToBoolean lval) w2) as [[lbool | ? ? ?] ?];
        [ | discriminate ].
      injection Ht as _ _ <-. auto.
  - intros ->. exact Hrun.
  - intros ->. cbv zeta. rewrite Hrun.
    unfold evaluate_store_return.
    destruct (engine (Evaluate n.(AssignmentExpression)) w3) as [rref w4].
    cbn [fst].
    destruct (engine (GetValue rref) w4) as [[rval | k x t] w5].
    + destruct (engine (PutValue lref (NormalCompletion rval)) w5)
        as [stored w6].
      do 3 eexists. split; [ reflexivity | ]. split; [ reflexivity | ].
      right. exists rval. split; [ reflexivity | ].
      destruct stored; cbn; [ reflexivity | discriminate ].
    + do 3 eexists. split; [ reflexivity | ]. split; [ reflexivity | ].
      left. reflexivity.
Qed.

(** *** Plain assignment *)

(** C6.  Plain [=] with a target that is no literal evaluates the source
    by [NamedEvaluation], with the name [GetReferencedName] gives for the
    target reference, exactly when the source is an anonymous function
    definition and the target an identifier reference; in every other
    case the source is evaluated by [Evaluate] and read with [GetValue],
    and [NamedEvaluation] is not called. *)
Theorem plain_assignment_names_anonymous_function
  n w type lref w1 anonymous w2 identifier w3 :
  n.(AssignmentOperator) = "=" ->
  Get n.(LeftHandSideExpression) "type" = Return type ->
  is_literal type = false ->
  engine (Evaluate n.(LeftHandSideExpression)) w = (NormalCompletion lref, w1) ->
  engine (IsAnonymousFunctionDefinition n.(AssignmentExpression)) w1
    = (anonymous, w2) ->
  engine (IsIdentifierRef n.(LeftHandSideExpression)) w2 = (identifier, w3) ->
  let tests :=
    if anonymous
    then [ IsAnonymousFunctionDefinition n.(AssignmentExpression);
           IsIdentifierRef n.(LeftHandSideExpression) ]
    else [ IsAnonymousFunctionDefinition n.(AssignmentExpression) ] in
  let w4 := if anonymous then w3 else w2 in
  (anonymous && identifier = true ->
   let name := fst (engine (GetReferencedName lref) w4) in
   exists rval,
     trace engine (Evaluate_AssignmentExpression n) w =
       [ Evaluate n.(LeftHandSideExpression) ] ++ tests
       ++ [ GetReferencedName lref;
            NamedEvaluation n.(AssignmentExpression) name;
            PutValue (NormalCompletion lref) rval ])
  /\ (anonymous && identifier = false ->
      let rref := fst (engine (Evaluate n.(AssignmentExpression)) w4) in
      exists rest,
        trace engine (Evaluate_AssignmentExpression n) w =
          [ Evaluate n.(LeftHandSideExpression) ] ++ tests
          ++ [ Evaluate n.(AssignmentExpression); GetValue rref ] ++ rest
        /\ (rest = []
            \/ exists rval,
                 rest = [ PutValue (NormalCompletion lref)
                            (NormalCompletion rval) ])).
Proof.
  intros Hop Hty Hlit H1 H2 H3 tests w4.
  pose proof (run_plain n w _ _ _ _ _ _ _ Hop Hty Hlit H1 H2 H3) as Hrun.
  cbv zeta in Hrun. fold tests w4 in Hrun.
  unfold trace. rewrite Hrun. split; intros ->.
  - cbv zeta.
    destruct (engine (GetReferencedName lref) w4) as [name w5]. cbn [fst].
    destruct (engine (NamedEvaluation _ name) w5) as [rval w6].
    destruct (engine (PutValue _ rval) w6) as [stored w7].
    exists rval. reflexivity.
  - cbv zeta. unfold evaluate_store_return.
    destruct (engine (Evaluate n.(AssignmentExpression)) w4) as [rref w5].
    cbn [fst].
    destruct (engine (GetValue rref) w5) as [[rval | k x t] w6].
    + destruct (engine (PutValue _ (NormalCompletion rval)) w6) as [stored w7].
      eexists. split; [ reflexivity | right; eauto ].
    + exists []. split; [ reflexivity | left; reflexivity ].
Qed.


(** *** Every form *)

(** The end of a run through "evaluate the source, GetValue, PutValue,
    return". *)
Ltac stores_source :=
  ask; ask_case; [ | discriminate ];
  ask_case; [ | discriminate ];
  intros [= ->]; left; reflexivity.

(** C10.  A normal completion with [v] ends one of two kinds of run.  In
    the first exactly one store operation was called, and the value passed
    to it is [v] itself: [PutValue] in the plain, logical and compound
    forms, the destructuring evaluator in the destructuring form.  The
    second called no store operation: it is the short circuit of a logical
    form, which evaluated the target, read its value [v] and tested it. *)
Theorem normal_completion_returns_stored_value n w v :
  result engine (Evaluate_AssignmentExpression n) w
    = Returned (NormalCompletion v) ->
  stores (trace engine (Evaluate_AssignmentExpression n) w)
    = [ NormalCompletion v ]
  \/ (stores (trace engine (Evaluate_AssignmentExpression n) w) = []
      /\ In n.(AssignmentOperator) [ "&&="; "||="; "??=" ]
      /\ exists lref w1 test,
           engine (Evaluate n.(LeftHandSideExpression)) w = (lref, w1)
           /\ fst (engine (GetValue lref) w1) = NormalCompletion v
           /\ trace engine (Evaluate_AssignmentExpression n) w =
                [ Evaluate n.(LeftHandSideExpression); GetValue lref ] ++ test
           /\ (test = [] \/ test = [ ToBoolean v ])).
Proof.
  destruct n as [target op source].
  unfold Evaluate_AssignmentExpression.
  cbn [LeftHandSideExpression AssignmentOperator AssignmentExpression].
  destruct (String.eqb_spec op "=") as [-> | _].
  { destruct (Get target "type") as [type | e]; cbn [host]; [ | discriminate ].
    destruct (negb (type === "ObjectLiteral") && negb (type === "ArrayLiteral")).
    - ask_case; [ | discriminate ].
      ask_case; [ ask_case | ].
      + ask. ask. ask_case; [ | discriminate ].
        intros [= ->]. left. reflexivity.
      + stores_source.
      + stores_source.
    - destruct (refineLeftHandSideExpression target) as [pattern | e];
        cbn [host]; [ | discriminate ].
      ask. ask_case; [ | discriminate ].
      ask_case; [ | discriminate ].
      intros [= ->]. left. reflexivity. }
  destruct (String.eqb_spec op "&&=") as [-> | _].
  { ask. ask_case; [ | discriminate ].
    ask_case; [ | discriminate ].
    match goal with
    | |- context [match ?x with Val _ => _ | Ref _ _ => _ end] =>
        destruct x as [[] | ]
    end; forward.
    all: try stores_source.
    intros [= ->]. right. split; [ reflexivity | ]. split; [ cbn; tauto | ].
    eexists _, _, [ _ ]. split; [ reflexivity | ].
    split; [ rewrite E0; reflexivity | ].
    split; [ reflexivity | right; reflexivity ]. }
  destruct (String.eqb_spec op "||=") as [-> | _].
  { ask. ask_case; [ | discriminate ].
    ask_case; [ | discriminate ].
    match goal with
    | |- context [match ?x with Val _ => _ | Ref _ _ => _ end] =>
        destruct x as [[] | ]
    end; forward.
    all: try stores_source.
    intros [= ->]. right. split; [ reflexivity | ]. split; [ cbn; tauto | ].
    eexists _, _, [ _ ]. split; [ reflexivity | ].
    split; [ rewrite E0; reflexivity | ].
    split; [ reflexivity | right; reflexivity ]. }
  destruct (String.eqb_spec op "??=") as [-> | _].
  { ask. ask_case; [ | discriminate ].
    match goal with
    | |- context [match ?x with Val _ => _ | Ref _ _ => _ end] =>
        destruct x as [[] | ]
    end; forward.
    all: try stores_source.
    all: intros [= <-]; right; (split; [ reflexivity | ]);
      (split; [ cbn; tauto | ]);
      eexists _, _, [ ]; (split; [ reflexivity | ]);
      (split; [ rewrite E0; reflexivity | ]);
      (split; [ reflexivity | left; reflexivity ]). }
  rewrite Get_opText_table. forward.
  ask. ask_case; [ | discriminate ].
  ask. ask_case; [ | discriminate ].
  ask. ask_case; [ | discriminate ].
  intros [= ->]. left. reflexivity.
Qed.

(** *** More on the runs *)

Lemma answers_Vis {A} c (k : answer c -> Gen A) w :
  answers engine (Vis c k) w =
    match as_completion c (fst (engine c w)) with
    | Some completion =>
        completion :: answers engine (k (fst (engine c w))) (snd (engine c w))
    | None => answers engine (k (fst (engine c w))) (snd (engine c w))
    end.
Proof.
  cbn [answers]. destruct (engine c w) as [x w1]. reflexivity.
Qed.

Lemma answers_Ret {A} (a : A) w : answers engine (Ret a) w = [].
Proof. reflexivity. Qed.

(** One step of the exploration of the runs of a form: past the macros
    and the calls, then a case analysis on what blocks the run. *)
Ltac advance :=
  unfold ReturnIfAbrupt;
  cbn [host Q X fst snd as_completion
       LeftHandSideExpression AssignmentOperator AssignmentExpression];
  rewrite ?result_Vis, ?final_Vis, ?trace_Vis, ?answers_Vis,
          ?result_Ret, ?final_Ret, ?trace_Ret, ?answers_Ret;
  cbn [fst snd as_completion].

Ltac explore_step :=
  advance;
  match goal with
  | |- context [Q ?x _] => is_var x; destruct x
  | |- context [X ?x _] => is_var x; destruct x
  | |- context [match ?x with Val _ => _ | Ref _ _ => _ end] =>
      is_var x; destruct x as [[] | ]
  | |- context [if ?b then _ else _] => is_var b; destruct b
  | |- context [engine ?c ?w] =>
      let x := fresh "x" in
      let E := fresh "E" in
      destruct (engine c w) as [x ?] eqn:E
  end.

Ltac explore := repeat explore_step; advance.

(** The five branches of the dispatch, with the host exceptions of the
    plain form split off. *)
Ltac branches :=
  unfold Evaluate_AssignmentExpression;
  cbn [LeftHandSideExpression AssignmentOperator AssignmentExpression];
  repeat match goal with
         | |- context [String.eqb ?op ?t] =>
             is_var op; destruct (String.eqb_spec op t)
         end;
  rewrite ?Get_opText_table;
  repeat match goal with
         | |- context [host ?m _] =>
             let E := fresh "E" in
             destruct m eqn:E; try discriminate E; cbn [host]
         | |- context [negb (?t === "ObjectLiteral") && negb (?t === "ArrayLiteral")] =>
             let E := fresh "E" in
             destruct (negb (t === "ObjectLiteral") && negb (t === "ArrayLiteral")) eqn:E
         end.

(** X9.  Whatever the form and however the run ends, a store operation is
    the last call of the run: nothing is called after [PutValue] or after
    the destructuring evaluator, and no run stores twice. *)
Theorem store_is_the_last_call n w :
  stores (removelast (trace engine (Evaluate_AssignmentExpression n) w)) = [].
Proof.
  destruct n as [target op source].
  branches; explore; reflexivity.
Qed.

(** X10.  An abrupt completion that the evaluation returns is one that the
    engine gave in answer to a call of the run: the evaluator makes none of
    its own and changes none. *)
Theorem abrupt_result_is_an_answer n w c :
  result engine (Evaluate_AssignmentExpression n) w = Returned c ->
  is_abrupt c = true ->
  In c (answers engine (Evaluate_AssignmentExpression n) w).
Proof.
  destruct n as [target op source].
  branches; explore;
    intros H Hc; try discriminate H; injection H as <-;
    try discriminate Hc; cbn; tauto.
Qed.

(** X13.  Plain [=] with a literal target does not evaluate the target.  It
    refines it first: a literal that the refiner rejects ends the
    evaluation with the refiner's exception before anything is called.
    Otherwise the source is evaluated and read, the pattern and the value
    read go to the destructuring evaluator, and the value read is returned;
    an abrupt completion of the reading or of the destructuring is returned
    instead, and the reading, when abrupt, is the last call. *)
Theorem destructuring_assignment_run n w type :
  n.(AssignmentOperator) = "=" ->
  Get n.(LeftHandSideExpression) "type" = Return type ->
  is_literal type = true ->
  run engine (Evaluate_AssignmentExpression n) w =
    match refineLeftHandSideExpression n.(LeftHandSideExpression) with
    | Throw e => (Thrown e, w, [])
    | Return pattern =>
        let (rref, w1) := engine (Evaluate n.(AssignmentExpression)) w in
        let (got, w2) := engine (GetValue rref) w1 in
        match got with
        | AbruptCompletion _ _ _ =>
            (Returned got, w2,
             [ Evaluate n.(AssignmentExpression); GetValue rref ])
        | NormalCompletion rval =>
            let (done, w3) :=
              engine (DestructuringAssignmentEvaluation pattern rval) w2 in
            (Returned (if is_abrupt done then done else NormalCompletion rval),
             w3,
             [ Evaluate n.(AssignmentExpression); GetValue rref;
               DestructuringAssignmentEvaluation pattern rval ])
        end
    end.
Proof.
  destruct n as [target op source].
  cbn [LeftHandSideExpression AssignmentOperator AssignmentExpression].
  intros -> Hty Hlit.
  rewrite run_eq. unfold Evaluate_AssignmentExpression.
  cbn [LeftHandSideExpression AssignmentOperator AssignmentExpression
       String.eqb Ascii.eqb Bool.eqb].
  rewrite Hty. cbn [host].
  replace (negb (type === "ObjectLiteral") && negb (type === "ArrayLiteral"))
    with false
    by (unfold is_literal in Hlit;
        destruct (type === "ObjectLiteral"), (type === "ArrayLiteral");
        try reflexivity; discriminate Hlit).
  destruct (refineLeftHandSideExpression target) as [pattern | e];
    cbn [host]; [ | reflexivity ].
  ask. ask_case; [ | reflexivity ].
  ask_case; reflexivity.
Qed.

(** X14.  Plain [=] with a target that is no literal returns an abrupt
    completion of the evaluation of the target at once: the target is the
    only thing evaluated, the source is not, and nothing is stored. *)
Theorem plain_assignment_abrupt_target n w type kind value label w1 :
  n.(AssignmentOperator) = "=" ->
  Get n.(LeftHandSideExpression) "type" = Return type ->
  is_literal type = false ->
  engine (Evaluate n.(LeftHandSideExpression)) w
    = (AbruptCompletion kind value label, w1) ->
  run engine (Evaluate_AssignmentExpression n) w =
    (Returned (AbruptCompletion kind value label), w1,
     [ Evaluate n.(LeftHandSideExpression) ]).
Proof.
  destruct n as [target op source].
  cbn [LeftHandSideExpression AssignmentOperator AssignmentExpression].
  intros -> Hty Hlit H1.
  rewrite run_eq. unfold Evaluate_AssignmentExpression.
  cbn [LeftHandSideExpression AssignmentOperator AssignmentExpression
       String.eqb Ascii.eqb Bool.eqb].
  rewrite Hty. cbn [host]. rewrite (not_literal _ Hlit).
  answer_with H1. reflexivity.
Qed.

(** X15.  Every form but plain [=] passes what the evaluation of the target
    gave to [GetValue] without looking at it, abrupt or not, and an abrupt
    completion of [GetValue] ends the run: it is returned, the source is not
    evaluated and nothing is stored. *)
Theorem abrupt_target_value_ends_the_run n w lref w1 got w2 :
  n.(AssignmentOperator) <> "=" ->
  engine (Evaluate n.(LeftHandSideExpression)) w = (lref, w1) ->
  engine (GetValue lref) w1 = (got, w2) ->
  is_abrupt got = true ->
  run engine (Evaluate_AssignmentExpression n) w =
    (Returned got, w2, [ Evaluate n.(LeftHandSideExpression); GetValue lref ]).
Proof.
  destruct n as [target op source].
  cbn [LeftHandSideExpression AssignmentOperator AssignmentExpression].
  intros Hop H1 H2 Hgot.
  destruct got as [ | kind value label ]; [ discriminate Hgot | ].
  rewrite run_eq. unfold Evaluate_AssignmentExpression.
  cbn [LeftHandSideExpression AssignmentOperator AssignmentExpression].
  destruct (String.eqb_spec op "=") as [-> | _]; [ contradiction | ].
  destruct (String.eqb op "&&="), (String.eqb op "||="), (String.eqb op "??=");
    answer_with H1; answer_with H2; reflexivity.
Qed.

(** X16.  In [&&=] and [||=] an abrupt completion of [ToBoolean] fails the
    assertion [X]: the evaluation throws, after the target was evaluated,
    read and coerced, and neither evaluates the source nor stores. *)
Theorem abrupt_coercion_fails_the_assertion n w lref w1 lval w2 coerced w3 :
  n.(AssignmentOperator) = "&&=" \/ n.(AssignmentOperator) = "||=" ->
  engine (Evaluate n.(LeftHandSideExpression)) w = (lref, w1) ->
  engine (GetValue lref) w1 = (NormalCompletion lval, w2) ->
  engine (ToBoolean lval) w2 = (coerced, w3) ->
  is_abrupt coerced = true ->
  run engine (Evaluate_AssignmentExpression n) w =
    (Thrown AssertionError, w3,
     [ Evaluate n.(LeftHandSideExpression); GetValue lref; ToBoolean lval ]).
Proof.
  destruct n as [target op source].
  cbn [LeftHandSideExpression AssignmentOperator AssignmentExpression].
  intros Hop H1 H2 H3 Hc.
  destruct coerced as [ | kind value label ]; [ discriminate Hc | ].
  rewrite run_eq. unfold Evaluate_AssignmentExpression.
  cbn [LeftHandSideExpression AssignmentOperator AssignmentExpression].
  destruct Hop as [-> | ->]; cbn [String.eqb Ascii.eqb Bool.eqb];
    answer_with H1; answer_with H2; answer_with H3; reflexivity.
Qed.

(** X17.  [ToBoolean] is called by [&&=] and [||=] only: no other form
    coerces the value of its target, [??=] included. *)
Theorem only_and_or_coerce n w :
  n.(AssignmentOperator) <> "&&=" ->
  n.(AssignmentOperator) <> "||=" ->
  existsb is_ToBoolean (trace engine (Evaluate_AssignmentExpression n) w)
    = false.
Proof.
  destruct n as [target op source].
  cbn [LeftHandSideExpression AssignmentOperator AssignmentExpression].
  intros Hand Hor.
  branches; try contradiction; explore; reflexivity.
Qed.

(** X18.  When plain [=] evaluates its source by [NamedEvaluation], the
    completion that comes back is not inspected: abrupt or not, it is the
    value argument of [PutValue].  An abrupt completion of [PutValue] is
    returned, and the completion of [NamedEvaluation] otherwise. *)
Theorem named_evaluation_completion_is_passed_to_PutValue
  n w type lref w1 w2 w3 name w4 rval w5 stored w6 :
  n.(AssignmentOperator) = "=" ->
  Get n.(LeftHandSideExpression) "type" = Return type ->
  is_literal type = false ->
  engine (Evaluate n.(LeftHandSideExpression)) w = (NormalCompletion lref, w1) ->
  engine (IsAnonymousFunctionDefinition n.(AssignmentExpression)) w1
    = (true, w2) ->
  engine (IsIdentifierRef n.(LeftHandSideExpression)) w2 = (true, w3) ->
  engine (GetReferencedName lref) w3 = (name, w4) ->
  engine (NamedEvaluation n.(AssignmentExpression) name) w4 = (rval, w5) ->
  engine (PutValue (NormalCompletion lref) rval) w5 = (stored, w6) ->
  run engine (Evaluate_AssignmentExpression n) w =
    (Returned (if is_abrupt stored then stored else rval), w6,
     [ Evaluate n.(LeftHandSideExpression);
       IsAnonymousFunctionDefinition n.(AssignmentExpression);
       IsIdentifierRef n.(LeftHandSideExpression);
       GetReferencedName lref;
       NamedEvaluation n.(AssignmentExpression) name;
       PutValue (NormalCompletion lref) rval ]).
Proof.
  intros Hop Hty Hlit H1 H2 H3 H4 H5 H6.
  erewrite run_plain by eassumption.
  cbv zeta. cbn [andb]. rewrite H4, H5, H6. reflexivity.
Qed.

(** X19.  No run makes more than two calls of [Evaluate] or
    [NamedEvaluation], whatever the form and however the run ends: beyond
    its target and its source the evaluator evaluates nothing, and nothing
    a third time. *)
Theorem at_most_two_evaluations n w :
  length (filter is_evaluation
            (trace engine (Evaluate_AssignmentExpression n) w)) <= 2.
Proof.
  destruct n as [target op source].
  branches; explore; cbn; repeat constructor.
Qed.

(** X20.  A run makes no call only when a host exception ends it at once.
    Otherwise its first call evaluates the target, or, for plain [=] with a
    literal target, the source. *)
Theorem first_call_of_a_run n w :
  match trace engine (Evaluate_AssignmentExpression n) w with
  | [] => exists e, result engine (Evaluate_AssignmentExpression n) w = Thrown e
  | first :: _ =>
      first = Evaluate n.(LeftHandSideExpression)
      \/ (n.(AssignmentOperator) = "="
          /\ first = Evaluate n.(AssignmentExpression)
          /\ exists type,
               Get n.(LeftHandSideExpression) "type" = Return type
               /\ is_literal type = true)
  end.
Proof.
  destruct n as [target op source].
  cbn [LeftHandSideExpression AssignmentOperator AssignmentExpression].
  branches; advance; try (eexists; reflexivity); try (left; reflexivity).
  right. split; [ assumption | ]. split; [ reflexivity | ].
  eexists. split; [ reflexivity | ].
  unfold is_literal.
  match goal with
  | H : negb (?a) && negb (?b) = false |- _ =>
      destruct a, b; try reflexivity; discriminate H
  end.
Qed.


End Runs.

(** ** Host exceptions *)

Section Escapes.

Variable World : Type.
Variable engine : forall c : Call, World -> Host (answer c) * World.




End Escapes.

(** Against operations that all answer, the evaluation is the run of
    [run]: same result, same calls, and no operation throws. *)
Lemma returning_run {World : Type}
  (engine : forall c : Call, World -> answer c * World)
  (g : Gen Outcome) (w : World) :
  outcome_of (returning engine) g w = result engine g w
  /\ calls_of (returning engine) g w = trace engine g w
  /\ thrown_by (returning engine) g w = None.
Proof.
  revert w. induction g as [a | c k IH]; intros w.
  - repeat split.
  - unfold result, trace in *. cbn [outcome_of calls_of thrown_by run returning].
    destruct (engine c w) as [x w1]. cbn [fst snd].
    destruct (IH x w1) as (Ho & Hc & Ht).
    destruct (run engine (k x) w1) as [[o w2] calls].
    cbn [fst snd] in *. rewrite Ho, Hc, Ht. repeat split.
Qed.


(** ** The refiner *)

Lemma withProp_own {A} (k : string) (f : JSVal -> A) (d : A) props :
  withProp k f d props =
    match own k props with
    | Some v => f v
    | None => d
    end.
Proof.
  induction props as [ | [k' v] rest IH ]; cbn; [ reflexivity | ].
  destruct (String.eqb k k'); [ reflexivity | exact IH ].
Qed.

(** A successful [map] keeps the positions: an empty slot stays empty and
    an element is replaced by the callback's result for it. *)
Lemma Array_map_nth (f : JSVal -> Host JSVal) slots elements :
  Array_map f slots = Return elements ->
  forall i,
    match nth_error slots i with
    | None => nth_error elements i = None
    | Some None => nth_error elements i = Some None
    | Some (Some x) =>
        exists y, f x = Return y /\ nth_error elements i = Some (Some y)
    end.
Proof.
  revert elements.
  induction slots as [ | [x | ] rest IH ]; cbn [Array_map]; intros elements H i.
  - injection H as <-. destruct i; reflexivity.
  - destruct (f x) as [y | e] eqn:Hx; cbn [bind] in H; [ | discriminate ].
    destruct (Array_map f rest) as [r | e]; cbn [bind] in H; [ | discriminate ].
    injection H as <-. destruct i as [ | i]; cbn [nth_error].
    + exists y. auto.
    + exact (IH r eq_refl i).
  - destruct (Array_map f rest) as [r | e]; cbn [bind] in H; [ | discriminate ].
    injection H as <-. destruct i as [ | i]; cbn [nth_error].
    + reflexivity.
    + exact (IH r eq_refl i).
Qed.

(** An element on which the callback throws makes [map] throw. *)
Lemma Array_map_throws (f : JSVal -> Host JSVal) slots x e :
  In (Some x) slots -> f x = Throw e -> exists e', Array_map f slots = Throw e'.
Proof.
  intros Hin Hx.
  induction slots as [ | [y | ] rest IH ]; cbn [Array_map]; [ destruct Hin | | ].
  - destruct Hin as [[= ->] | Hin].
    + rewrite Hx. eexists. reflexivity.
    + destruct (f y); cbn [bind]; [ | eexists; reflexivity ].
      destruct (IH Hin) as [e' ->]. eexists. reflexivity.
  - destruct Hin as [[=] | Hin].
    destruct (IH Hin) as [e' ->]. eexists. reflexivity.
Qed.

(** The [switch] is on [node.type]: reading it from [undefined] or [null]
    throws, and a type outside the six cases reaches [default]. *)
Lemma refine_default node type :
  Get node "type" = Return type ->
  existsb (strict_equals type) handled_types = false ->
  refineLeftHandSideExpression node = Throw (OutOfRange_refine type).
Proof.
  intros Hget Hnone. cbn [existsb handled_types] in Hnone.
  repeat (apply orb_false_iff in Hnone; destruct Hnone as [? Hnone]).
  destruct node; cbn [Get] in Hget; try discriminate Hget;
    try (injection Hget as <-; reflexivity).
  cbn [refineLeftHandSideExpression].
  destruct (own "type" props) as [t | ]; injection Hget as <-;
    repeat match goal with H : (_ === _) = false |- _ => rewrite H; clear H end;
    reflexivity.
Qed.

Lemma absent_element_throws x :
  absent_element x -> exists e, refineLeftHandSideExpression x = Throw e.
Proof.
  intros [-> | [-> | ->]]; eexists; reflexivity.
Qed.

(** C4, as the code has it.  The refiner maps itself over the element list
    of an array literal: every element present is refined, in order, and an
    empty slot of the list stays an empty slot of the produced list.  It has
    no case for an absent element that is present as a value: [undefined],
    [null] or an [Elision] node in the list makes the refiner throw. *)
Theorem refine_ArrayLiteral_elements props slots :
  own "type" props = Some (JStr "ArrayLiteral") ->
  own "ElementList" props = Some (JArr slots) ->
  refineLeftHandSideExpression (JObj props) =
    (elements <- Array_map refineLeftHandSideExpression slots ;;
     Return (JObj [ ("type", JStr "ArrayAssignmentPattern");
                    ("AssignmentElementList", JArr elements) ]))
  /\ (forall elements,
        Array_map refineLeftHandSideExpression slots = Return elements ->
        forall i,
          match nth_error slots i with
          | None => nth_error elements i = None
          | Some None => nth_error elements i = Some None
          | Some (Some x) =>
              exists y, refineLeftHandSideExpression x = Return y
                        /\ nth_error elements i = Some (Some y)
          end)
  /\ (forall x, In (Some x) slots -> absent_element x ->
        exists e, refineLeftHandSideExpression (JObj props) = Throw e).
Proof.
  intros Hty Hlist.
  assert (Heq : refineLeftHandSideExpression (JObj props) =
    (elements <- Array_map refineLeftHandSideExpression slots ;;
     Return (JObj [ ("type", JStr "ArrayAssignmentPattern");
                    ("AssignmentElementList", JArr elements) ]))).
  { cbn [refineLeftHandSideExpression]. rewrite Hty.
    cbn [strict_equals String.eqb Ascii.eqb Bool.eqb].
    rewrite withProp_own, Hlist. reflexivity. }
  split; [ exact Heq | ]. split.
  - intros elements H. exact (Array_map_nth _ _ _ H).
  - intros x Hin Habsent.
    destruct (absent_element_throws _ Habsent) as [e He].
    destruct (Array_map_throws _ _ _ _ Hin He) as [e' He'].
    exists e'. rewrite Heq, He'. reflexivity.
Qed.

(** C5, on the code.  For a property whose value is an assignment
    expression [target = default] the element the refiner builds has the
    fields [type], [DestructuringAssignmentTarget] and
    [AssignmentExpression]: the default is under [AssignmentExpression] and
    the element has no [Initializer], which reads as [undefined].  The case
    of a bare assignment expression puts the default under [Initializer]. *)
Theorem PropertyDefinition_default_is_not_under_Initializer
  (name target default : JSVal) (op : string) :
  let element :=
    JObj [ ("type", JStr "AssignmentElement");
           ("DestructuringAssignmentTarget", target);
           ("AssignmentExpression", default) ] in
  refineLeftHandSideExpression
    (Ast.PropertyDefinition name (Ast.AssignmentExpression target op default))
  = Return (JObj [ ("type", JStr "AssignmentProperty");
                   ("PropertyName", name);
                   ("AssignmentElement", element) ])
  /\ Get element "Initializer" = Return JUndefined
  /\ Get element "AssignmentExpression" = Return default
  /\ refineLeftHandSideExpression (Ast.AssignmentExpression target op default)
     = Return (JObj [ ("type", JStr "AssignmentElement");
                      ("DestructuringAssignmentTarget", target);
                      ("Initializer", default) ]).
Proof. repeat split. Qed.

(** ** More on the refiner *)

Lemma bind_Return {A B} (m : Host A) (f : A -> Host B) (b : B) :
  bind m f = Return b -> exists a, m = Return a /\ f a = Return b.
Proof.
  destruct m as [a | e]; cbn [bind]; [ eauto | discriminate ].
Qed.

(** X1.  A node that the refiner accepts is an object whose [type] is one
    of the six handled, and the pattern built for it is an object tagged by
    that type: an array or object pattern for a literal, an
    [AssignmentElement] for an assignment expression, and an
    [AssignmentProperty] for a property definition, an identifier reference
    and a cover initialized name, also where these are elements of an
    array literal. *)
Theorem refine_result_is_tagged_by_type node pattern :
  refineLeftHandSideExpression node = Return pattern ->
  exists type,
    Get node "type" = Return (JStr type)
    /\ In type handled_types
    /\ Get pattern "type" = Return (JStr (pattern_tag type)).
Proof.
  destruct node; try discriminate.
  cbn [refineLeftHandSideExpression Get].
  destruct (own "type" props) as [t | ]; [ | discriminate ].
  destruct t as [ | | | type | | | ]; try discriminate.
  cbn [strict_equals].
  destruct (String.eqb_spec type "ArrayLiteral") as [-> | _].
  { rewrite withProp_own. destruct (own "ElementList" props) as [[] | ];
      try discriminate.
    intros H. apply bind_Return in H. destruct H as (elements & _ & [= <-]).
    eexists. split; [ reflexivity | ]. split; [ cbn; tauto | reflexivity ]. }
  destruct (String.eqb_spec type "ObjectLiteral") as [-> | _].
  { rewrite withProp_own.
    destruct (own "PropertyDefinitionList" props) as [[] | ]; try discriminate.
    intros H. apply bind_Return in H. destruct H as (refined & _ & [= <-]).
    eexists. split; [ reflexivity | ]. split; [ cbn; tauto | reflexivity ]. }
  destruct (String.eqb_spec type "PropertyDefinition") as [-> | _].
  { unfold refine_PropertyDefinition. intros H.
    apply bind_Return in H. destruct H as (name & _ & H).
    apply bind_Return in H. destruct H as (value & _ & H).
    apply bind_Return in H. destruct H as (vtype & _ & H).
    apply bind_Return in H. destruct H as (element & _ & [= <-]).
    eexists. split; [ reflexivity | ]. split; [ cbn; tauto | reflexivity ]. }
  destruct (String.eqb_spec type "IdentifierReference") as [-> | _].
  { intros [= <-].
    eexists. split; [ reflexivity | ]. split; [ cbn; tauto | reflexivity ]. }
  destruct (String.eqb_spec type "CoverInitializedName") as [-> | _].
  { intros H.
    apply bind_Return in H. destruct H as (id & _ & H).
    apply bind_Return in H. destruct H as (init & _ & [= <-]).
    eexists. split; [ reflexivity | ]. split; [ cbn; tauto | reflexivity ]. }
  destruct (String.eqb_spec type "AssignmentExpression") as [-> | _].
  { intros H.
    apply bind_Return in H. destruct H as (target & _ & H).
    apply bind_Return in H. destruct H as (init & _ & [= <-]).
    eexists. split; [ reflexivity | ]. split; [ cbn; tauto | reflexivity ]. }
  discriminate.
Qed.

(** X2.  The refiner rejects a node by its [type] alone.  Reading the type
    of [undefined] or [null] throws, and that exception is the refiner's;
    any other node whose type is none of the six handled, an array or a
    primitive included, raises [OutOfRange] with the type that was read. *)
Theorem refine_rejects_by_type node :
  match Get node "type" with
  | Throw e => refineLeftHandSideExpression node = Throw e
  | Return type =>
      existsb (strict_equals type) handled_types = false ->
      refineLeftHandSideExpression node = Throw (OutOfRange_refine type)
  end.
Proof.
  destruct (Get node "type") as [type | e] eqn:Hget.
  - apply refine_default. exact Hget.
  - destruct node; cbn [Get] in Hget; try discriminate Hget;
      try (injection Hget as <-; reflexivity).
    destruct (own "type" props); discriminate Hget.
Qed.

(** [map] succeeds when the callback does on every element present. *)
Lemma Array_map_succeeds (f : JSVal -> Host JSVal) slots :
  (forall x, In (Some x) slots -> exists y, f x = Return y) ->
  exists elements, Array_map f slots = Return elements.
Proof.
  induction slots as [ | [x | ] rest IH ]; intros H; cbn [Array_map].
  - eexists. reflexivity.
  - destruct (H x (or_introl eq_refl)) as [y ->].
    destruct IH as [r ->]; [ intros z Hz; apply H; right; exact Hz | ].
    eexists. reflexivity.
  - destruct IH as [r ->]; [ intros z Hz; apply H; right; exact Hz | ].
    eexists. reflexivity.
Qed.

(** [map] stops at the first element on which the callback throws. *)
Lemma Array_map_first_error (f : JSVal -> Host JSVal) before x after e :
  (forall y, In (Some y) before -> exists z, f y = Return z) ->
  f x = Throw e ->
  Array_map f (before ++ Some x :: after) = Throw e.
Proof.
  intros Hbefore Hx.
  induction before as [ | [y | ] rest IH ]; cbn [app Array_map].
  - rewrite Hx. reflexivity.
  - destruct (Hbefore y (or_introl eq_refl)) as [z ->]. cbn [bind].
    rewrite IH; [ reflexivity | ].
    intros z' Hz'. apply Hbefore. right. exact Hz'.
  - rewrite IH; [ reflexivity | ].
    intros z' Hz'. apply Hbefore. right. exact Hz'.
Qed.

Lemma refine_ArrayLiteral_eq props slots :
  own "type" props = Some (JStr "ArrayLiteral") ->
  own "ElementList" props = Some (JArr slots) ->
  refineLeftHandSideExpression (JObj props) =
    (elements <- Array_map refineLeftHandSideExpression slots ;;
     Return (JObj [ ("type", JStr "ArrayAssignmentPattern");
                    ("AssignmentElementList", JArr elements) ])).
Proof.
  intros Hty Hlist. cbn [refineLeftHandSideExpression]. rewrite Hty.
  cbn [strict_equals String.eqb Ascii.eqb Bool.eqb].
  rewrite withProp_own, Hlist. reflexivity.
Qed.

(** X3.  An array literal is refined exactly when every element present in
    its list is, and the list of the pattern is then as long as the list
    of the literal. *)
Theorem refine_ArrayLiteral_succeeds_iff props slots :
  own "type" props = Some (JStr "ArrayLiteral") ->
  own "ElementList" props = Some (JArr slots) ->
  ((exists pattern, refineLeftHandSideExpression (JObj props) = Return pattern)
   <-> (forall x, In (Some x) slots ->
                  exists y, refineLeftHandSideExpression x = Return y))
  /\ (forall pattern,
        refineLeftHandSideExpression (JObj props) = Return pattern ->
        exists elements,
          Get pattern "AssignmentElementList" = Return (JArr elements)
          /\ length elements = length slots).
Proof.
  intros Hty Hlist. rewrite (refine_ArrayLiteral_eq _ _ Hty Hlist).
  split; [ split | ].
  - intros [pattern H] x Hin.
    destruct (refineLeftHandSideExpression x) as [y | e] eqn:Hx;
      [ eauto | ].
    destruct (Array_map_throws _ _ _ _ Hin Hx) as [e' He'].
    rewrite He' in H. discriminate H.
  - intros H. destruct (Array_map_succeeds _ _ H) as [elements ->].
    eexists. reflexivity.
  - intros pattern H. apply bind_Return in H.
    destruct H as (elements & Hmap & [= <-]).
    exists elements. split; [ reflexivity | ].
    clear Hty Hlist. revert elements Hmap.
    induction slots as [ | [x | ] rest IH ]; cbn [Array_map]; intros elements H.
    + injection H as <-. reflexivity.
    + apply bind_Return in H. destruct H as (y & _ & H).
      apply bind_Return in H. destruct H as (r & Hr & [= <-]).
      cbn [length]. rewrite (IH r Hr). reflexivity.
    + apply bind_Return in H. destruct H as (r & Hr & [= <-]).
      cbn [length]. rewrite (IH r Hr). reflexivity.
Qed.

(** X4.  The refinement of an array literal fails with the exception of
    the leftmost element whose refinement fails; the elements after it do
    not matter. *)
Theorem refine_ArrayLiteral_first_error props before x after e :
  own "type" props = Some (JStr "ArrayLiteral") ->
  own "ElementList" props = Some (JArr (before ++ Some x :: after)) ->
  (forall y, In (Some y) before ->
             exists z, refineLeftHandSideExpression y = Return z) ->
  refineLeftHandSideExpression x = Throw e ->
  refineLeftHandSideExpression (JObj props) = Throw e.
Proof.
  intros Hty Hlist Hbefore Hx.
  rewrite (refine_ArrayLiteral_eq _ _ Hty Hlist).
  rewrite (Array_map_first_error _ _ _ _ _ Hbefore Hx). reflexivity.
Qed.

(** X5.  A literal or property definition that lacks the field its case
    reads first is a [TypeError]: an array literal without [ElementList],
    an object literal without [PropertyDefinitionList], a property
    definition without [AssignmentExpression]. *)
Theorem refine_missing_field props type field :
  own "type" props = Some (JStr type) ->
  In (type, field) [ ("ArrayLiteral", "ElementList");
                     ("ObjectLiteral", "PropertyDefinitionList");
                     ("PropertyDefinition", "AssignmentExpression") ] ->
  own field props = None ->
  refineLeftHandSideExpression (JObj props) = Throw TypeError.
Proof.
  intros Hty Hin Hnone. cbn [refineLeftHandSideExpression]. rewrite Hty.
  destruct Hin as [[= <- <-] | [[= <- <-] | [[= <- <-] | []]]];
    cbn [strict_equals String.eqb Ascii.eqb Bool.eqb].
  - rewrite withProp_own, Hnone. reflexivity.
  - rewrite withProp_own, Hnone. reflexivity.
  - unfold refine_PropertyDefinition. cbn [Get]. rewrite Hnone.
    destruct (own "PropertyName" props); reflexivity.
Qed.

(** What [forEach] leaves in [refined]: the refinements of the properties
    that are no rest property are appended in order, and the rest property
    is built from the last rest property of the list. *)
Lemma forEach_PropertyDefinition slots refined refined' :
  Array_forEach (PropertyDefinition_callback refineLeftHandSideExpression)
    slots refined = Return refined' ->
  exists added,
    refined'.(AssignmentPropertyList) = refined.(AssignmentPropertyList) ++ added
    /\ Forall2 (fun p y => refineLeftHandSideExpression p = Return y)
         (filter (fun p => negb (is_rest p)) (present slots)) added
    /\ refined'.(AssignmentRestProperty) =
         match last_rest None (present slots) with
         | Some value => Some (AssignmentRestProperty_object value)
         | None => refined.(AssignmentRestProperty)
         end.
Proof.
  revert refined.
  induction slots as [ | [p | ] rest IH ]; cbn [Array_forEach present];
    intros refined H.
  - injection H as <-. exists []. rewrite app_nil_r. repeat split. constructor.
  - apply bind_Return in H. destruct H as (mid & Hp & Hrest).
    destruct (IH _ Hrest) as (added & Hlist & Hall & Hlast). clear IH Hrest.
    unfold PropertyDefinition_callback in Hp.
    cbn [filter last_rest]. unfold is_rest, rest_target in *.
    destruct (Get p "PropertyName") as [name | e]; cbn [bind] in Hp;
      [ | discriminate ].
    assert (Hpush :
      (r <- refineLeftHandSideExpression p ;;
       Return (mkRefined (refined.(AssignmentPropertyList) ++ [r])
                 refined.(AssignmentRestProperty))) = Return mid ->
      exists y, refineLeftHandSideExpression p = Return y
                /\ mid = mkRefined (refined.(AssignmentPropertyList) ++ [y])
                           refined.(AssignmentRestProperty)).
    { intros Hb. apply bind_Return in Hb. destruct Hb as (y & Hy & [= <-]).
      eauto. }
    assert (Hkeep :
      (exists y, refineLeftHandSideExpression p = Return y
                 /\ mid = mkRefined (refined.(AssignmentPropertyList) ++ [y])
                            refined.(AssignmentRestProperty)) ->
      exists added0,
          refined'.(AssignmentPropertyList)
            = refined.(AssignmentPropertyList) ++ added0
          /\ Forall2 (fun p y => refineLeftHandSideExpression p = Return y)
               (p :: filter (fun p => negb (is_rest p)) (present rest)) added0
          /\ refined'.(AssignmentRestProperty) =
               match last_rest None (present rest) with
               | Some value => Some (AssignmentRestProperty_object value)
               | None => refined.(AssignmentRestProperty)
               end).
    { intros (y & Hy & ->).
      cbn [AssignmentPropertyList AssignmentRestProperty] in *.
      exists (y :: added). rewrite Hlist, <- app_assoc. cbn [app].
      split; [ reflexivity | ]. split; [ constructor; assumption | ].
      exact Hlast. }
    destruct name; cbn [is_null] in Hp;
      try (cbn [negb]; apply (Hkeep (Hpush Hp))).
    destruct (Get p "AssignmentExpression") as [value | e]; cbn [bind] in Hp;
      [ | discriminate ].
    destruct (truthy value).
    + injection Hp as <-.
      cbn [AssignmentPropertyList AssignmentRestProperty negb] in *.
      exists added. split; [ exact Hlist | ]. split; [ exact Hall | ].
      rewrite Hlast. clear.
      assert (Hl : forall ps current,
        last_rest (Some current) ps =
          match last_rest None ps with
          | Some v => Some v
          | None => Some current
          end).
      { induction ps as [ | q qs IHq ]; intros current; cbn [last_rest];
          [ reflexivity | ].
        destruct (rest_target q); [ | apply IHq ].
        rewrite IHq. destruct (last_rest None qs); reflexivity. }
      rewrite Hl. destruct (last_rest None (present rest)); reflexivity.
    + cbn [negb]. apply (Hkeep (Hpush Hp)).
  - apply IH. exact H.
Qed.

(** X6.  The pattern of an object literal lists the refinements of the
    properties that are no rest property, in the order of the literal, and
    takes its rest property from the last property of the literal that is
    one: a rest property need not come last, the properties after it are
    still listed, and of several the last wins.  Without a rest property
    the pattern has no [AssignmentRestProperty] field. *)
Theorem refine_ObjectLiteral_partition props slots pattern :
  own "type" props = Some (JStr "ObjectLiteral") ->
  own "PropertyDefinitionList" props = Some (JArr slots) ->
  refineLeftHandSideExpression (JObj props) = Return pattern ->
  exists listed,
    Forall2 (fun p y => refineLeftHandSideExpression p = Return y)
      (filter (fun p => negb (is_rest p)) (present slots)) listed
    /\ pattern =
         JObj ([ ("type", JStr "ObjectAssignmentPattern");
                 ("AssignmentPropertyList", JArr (map Some listed)) ]
               ++ match last_rest None (present slots) with
                  | Some value =>
                      [ ("AssignmentRestProperty",
                         AssignmentRestProperty_object value) ]
                  | None => []
                  end).
Proof.
  intros Hty Hlist. cbn [refineLeftHandSideExpression]. rewrite Hty.
  cbn [strict_equals String.eqb Ascii.eqb Bool.eqb].
  rewrite withProp_own, Hlist. intros H.
  apply bind_Return in H. destruct H as (refined & Heach & [= <-]).
  destruct (forEach_PropertyDefinition _ _ _ Heach) as (added & Hl & Hall & Hr).
  cbn [AssignmentPropertyList AssignmentRestProperty app] in Hl, Hr.
  exists added. split; [ exact Hall | ].
  unfold Refined_object. rewrite Hl, Hr.
  destruct (last_rest None (present slots)); reflexivity.
Qed.

(** X7.  An identifier reference, a cover initialized name and an
    assignment expression are always refined, whatever their other fields,
    and the pattern is made of the node's fields as they read, a field that
    is missing being [undefined] in the pattern.  An identifier reference
    gives the property [{ type: 'AssignmentProperty', IdentifierReference:
    node, Initializer: undefined }]; a cover initialized name the property
    with its own [IdentifierReference] and [Initializer]; an assignment
    expression the element whose target is its [LeftHandSideExpression] and
    whose initializer is its [AssignmentExpression]. *)
Theorem refine_leaf_always_succeeds props type :
  own "type" props = Some (JStr type) ->
  In type [ "IdentifierReference"; "CoverInitializedName";
            "AssignmentExpression" ] ->
  (forall k, In k [ "IdentifierReference"; "Initializer";
                    "LeftHandSideExpression"; "AssignmentExpression" ] ->
             Get (JObj props) k = Return (field_of props k))
  /\ refineLeftHandSideExpression (JObj props) =
       Return
         (if String.eqb type "IdentifierReference" then
            JObj [ ("type", JStr "AssignmentProperty");
                   ("IdentifierReference", JObj props);
                   ("Initializer", JUndefined) ]
          else if String.eqb type "CoverInitializedName" then
            JObj [ ("type", JStr "AssignmentProperty");
                   ("IdentifierReference", field_of props "IdentifierReference");
                   ("Initializer", field_of props "Initializer") ]
          else
            JObj [ ("type", JStr "AssignmentElement");
                   ("DestructuringAssignmentTarget",
                    field_of props "LeftHandSideExpression");
                   ("Initializer", field_of props "AssignmentExpression") ]).
Proof.
  intros Hty Hin. split.
  - intros k Hk. unfold field_of. cbn [Get].
    destruct Hk as [<- | [<- | [<- | [<- | []]]]];
      match goal with
      | |- context [own ?k props] => destruct (own k props)
      end; reflexivity.
  - cbn [refineLeftHandSideExpression]. rewrite Hty. unfold field_of.
    destruct Hin as [<- | [<- | [<- | []]]];
      cbn [strict_equals String.eqb Ascii.eqb Bool.eqb Get].
    + reflexivity.
    + destruct (own "IdentifierReference" props), (own "Initializer" props);
        reflexivity.
    + destruct (own "LeftHandSideExpression" props),
        (own "AssignmentExpression" props); reflexivity.
Qed.

(** X8.  A property definition is refined exactly when its
    [AssignmentExpression] is neither missing nor [undefined] nor [null];
    the refiner does not look further into it than its [type]. *)
Theorem refine_PropertyDefinition_succeeds_iff props :
  own "type" props = Some (JStr "PropertyDefinition") ->
  (exists pattern, refineLeftHandSideExpression (JObj props) = Return pattern)
  <-> (exists value,
         own "AssignmentExpression" props = Some value
         /\ value <> JUndefined /\ value <> JNull).
Proof.
  intros Hty. cbn [refineLeftHandSideExpression]. rewrite Hty.
  cbn [strict_equals String.eqb Ascii.eqb Bool.eqb].
  unfold refine_PropertyDefinition.
  assert (Hname : exists name, Get (JObj props) "PropertyName" = Return name).
  { cbn [Get]. destruct (own "PropertyName" props); eexists; reflexivity. }
  destruct Hname as [name ->]. cbn [bind Get].
  destruct (own "AssignmentExpression" props) as [value | ]; cbn [bind].
  - split.
    + intros [pattern H]. exists value. split; [ reflexivity | ].
      split; intros ->; discriminate H.
    + intros (v & [= <-] & Hu & Hn).
      destruct value; try contradiction; cbn [Get bind].
      5:{ destruct (own "type" props0) as [t | ]; cbn [bind];
          [ destruct (t === "AssignmentExpression") | ]; cbn [bind Get];
          repeat match goal with
                 | |- context [own ?k ?p] => destruct (own k p)
                 end; eexists; reflexivity. }
      all: eexists; reflexivity.
  - split.
    + intros [pattern H]. discriminate H.
    + intros (v & H & _). discriminate H.
Qed.

(** ** The statements on concrete programs *)

Import Programs.

(** [[a, , []]] with an empty slot. *)
Example refine_array_example :
  refineLeftHandSideExpression
    (Ast.ArrayLiteral [ Some (Ast.IdentifierReference "a"); None;
                        Some (Ast.ArrayLiteral []) ])
  = Return (JObj [ ("type", JStr "ArrayAssignmentPattern");
                   ("AssignmentElementList",
                    JArr [ Some (JObj [ ("type", JStr "AssignmentProperty");
                                        ("IdentifierReference", Ast.IdentifierReference "a");
                                        ("Initializer", JUndefined) ]);
                           None;
                           Some (JObj [ ("type", JStr "ArrayAssignmentPattern");
                                        ("AssignmentElementList", JArr []) ]) ]) ]).
Proof. reflexivity. Qed.

(** [a += b] on two strings, on the small engine. *)
Example add_assign_strings :
  run Sample.engine (Evaluate_AssignmentExpression add_assign) strings =
    (Returned (NormalCompletion (Val (Value_string "xy"))),
     ("a", Value_string "xy") :: strings,
     [ Evaluate a; GetValue (NormalCompletion (Ref Sample.global "a"));
       Evaluate b; GetValue (NormalCompletion (Ref Sample.global "b"));
       ApplyStringOrNumericBinaryOperator
         (Val (Value_string "x")) (JStr "+") (Val (Value_string "y"));
       PutValue (NormalCompletion (Ref Sample.global "a"))
                (NormalCompletion (Val (Value_string "xy"))) ]).
Proof. reflexivity. Qed.

(** [a &&= "s"] with a truthy [a], [a ||= "s"] with a truthy [a] and
    [a ??= "s"] with an undefined [a]. *)
Example and_assign_truthy :
  run Sample.engine (Evaluate_AssignmentExpression and_assign) strings =
    (Returned (NormalCompletion (Val (Value_string "s"))),
     ("a", Value_string "s") :: strings,
     [ Evaluate a; GetValue (NormalCompletion (Ref Sample.global "a"));
       ToBoolean (Val (Value_string "x"));
       Evaluate (Sample.StringLiteral "s");
       GetValue (NormalCompletion (Val (Value_string "s")));
       PutValue (NormalCompletion (Ref Sample.global "a"))
                (NormalCompletion (Val (Value_string "s"))) ]).
Proof. reflexivity. Qed.

Example or_assign_truthy :
  run Sample.engine (Evaluate_AssignmentExpression or_assign) strings =
    (Returned (NormalCompletion (Val (Value_string "x"))), strings,
     [ Evaluate a; GetValue (NormalCompletion (Ref Sample.global "a"));
       ToBoolean (Val (Value_string "x")) ]).
Proof. reflexivity. Qed.

Example coalesce_assign_undefined :
  run Sample.engine (Evaluate_AssignmentExpression coalesce_assign) nothing =
    (Returned (NormalCompletion (Val (Value_string "s"))),
     ("a", Value_string "s") :: nothing,
     [ Evaluate a; GetValue (NormalCompletion (Ref Sample.global "a"));
       Evaluate (Sample.StringLiteral "s");
       GetValue (NormalCompletion (Val (Value_string "s")));
       PutValue (NormalCompletion (Ref Sample.global "a"))
                (NormalCompletion (Val (Value_string "s"))) ]).
Proof. reflexivity. Qed.

Example coalesce_assign_defined :
  run Sample.engine (Evaluate_AssignmentExpression coalesce_assign) strings =
    (Returned (NormalCompletion (Val (Value_string "x"))), strings,
     [ Evaluate a; GetValue (NormalCompletion (Ref Sample.global "a")) ]).
Proof. reflexivity. Qed.

(** With a [PutValue] that writes what it is given, [a += b] on two
    objects overwrites [a] with the value of the operator's exception. *)
Example add_assign_objects_plain_store :
  run Sample.engine_plain_store (Evaluate_AssignmentExpression add_assign) objects =
    (Returned Sample.TypeError_completion,
     ("a", Value_string "TypeError") :: objects,
     [ Evaluate a; GetValue (NormalCompletion (Ref Sample.global "a"));
       Evaluate b; GetValue (NormalCompletion (Ref Sample.global "b"));
       ApplyStringOrNumericBinaryOperator
         (Val (Value_object 7)) (JStr "+") (Val (Value_object 8));
       PutValue (NormalCompletion (Ref Sample.global "a"))
                Sample.TypeError_completion ]).
Proof. reflexivity. Qed.



(** [a += (a = "z", "y")] with [a] bound to ["x"]: the source rebinds [a]
    to ["z"], and what is stored and returned is ["xy"], from the value of
    [a] read before the source was evaluated. *)
Example add_assign_rebinding_run :
  run Sample.engine (Evaluate_AssignmentExpression add_assign_rebinding) strings =
    (Returned (NormalCompletion (Val (Value_string "xy"))),
     ("a", Value_string "xy") :: ("a", Value_string "z") :: strings,
     [ Evaluate a; GetValue (NormalCompletion (Ref Sample.global "a"));
       Evaluate (Sample.Rebinding "a" "z" "y");
       GetValue (NormalCompletion (Val (Value_string "y")));
       ApplyStringOrNumericBinaryOperator
         (Val (Value_string "x")) (JStr "+") (Val (Value_string "y"));
       PutValue (NormalCompletion (Ref Sample.global "a"))
                (NormalCompletion (Val (Value_string "xy"))) ]).
Proof. reflexivity. Qed.

(** C3 at [a += (a = "z", "y")]. *)
Lemma compound_reads_target_before_source_witness :
  In add_assign_rebinding.(AssignmentOperator) compound_tokens
  /\ Sample.engine (Evaluate a) strings
     = (NormalCompletion (Ref Sample.global "a"), strings)
  /\ Sample.engine (GetValue (NormalCompletion (Ref Sample.global "a"))) strings
     = (NormalCompletion (Val (Value_string "x")), strings)
  /\ run Sample.engine (Evaluate_AssignmentExpression add_assign_rebinding)
       strings =
       (Returned (NormalCompletion (Val (Value_string "xy"))),
        ("a", Value_string "xy") :: ("a", Value_string "z") :: strings,
        [ Evaluate a; GetValue (NormalCompletion (Ref Sample.global "a"));
          Evaluate (Sample.Rebinding "a" "z" "y");
          GetValue (NormalCompletion (Val (Value_string "y")));
          ApplyStringOrNumericBinaryOperator
            (Val (Value_string "x")) (JStr "+") (Val (Value_string "y"));
          PutValue (NormalCompletion (Ref Sample.global "a"))
                   (NormalCompletion (Val (Value_string "xy"))) ]).
Proof.
  split; [ cbn; tauto | ]. split; [ reflexivity | ]. split; [ reflexivity | ].
  refine (compound_reads_target_before_source
            Sample.World Sample.engine add_assign_rebinding strings
            (NormalCompletion (Ref Sample.global "a")) strings
            (Val (Value_string "x")) strings _ eq_refl eq_refl).
  cbn; tauto.
Defined.

(** C9 at the token [#=]. *)
Lemma unknown_token_reaches_operator_witness :
  has_own_branch "#=" = false
  /\ Sample.engine (Evaluate a) strings
     = (NormalCompletion (Ref Sample.global "a"), strings)
  /\ Sample.engine (GetValue (NormalCompletion (Ref Sample.global "a"))) strings
     = (NormalCompletion (Val (Value_string "x")), strings)
  /\ Sample.engine (Evaluate b) strings
     = (NormalCompletion (Ref Sample.global "b"), strings)
  /\ Sample.engine (GetValue (NormalCompletion (Ref Sample.global "b"))) strings
     = (NormalCompletion (Val (Value_string "y")), strings)
  /\ Sample.engine
       (ApplyStringOrNumericBinaryOperator
          (Val (Value_string "x")) (opText_of "#=") (Val (Value_string "y")))
       strings
     = (Sample.TypeError_completion, strings)
  /\ Sample.engine
       (PutValue (NormalCompletion (Ref Sample.global "a"))
          Sample.TypeError_completion) strings
     = (Sample.TypeError_completion, strings)
  /\ Get opText_table "#=" = Return (opText_of "#=")
  /\ run Sample.engine (Evaluate_AssignmentExpression (mkNode a "#=" b)) strings =
       (Returned (if is_abrupt Sample.TypeError_completion
                  then Sample.TypeError_completion
                  else Sample.TypeError_completion), strings,
        [ Evaluate a; GetValue (NormalCompletion (Ref Sample.global "a"));
          Evaluate b; GetValue (NormalCompletion (Ref Sample.global "b"));
          ApplyStringOrNumericBinaryOperator
            (Val (Value_string "x")) (opText_of "#=") (Val (Value_string "y"));
          PutValue (NormalCompletion (Ref Sample.global "a"))
                   Sample.TypeError_completion ])
  /\ (~ In "#=" compound_tokens ->
      (mem "#=" Object_prototype_keys = false -> opText_of "#=" = JUndefined)
      /\ (mem "#=" Object_prototype_keys = true ->
          opText_of "#=" = JInherited "#=")
      /\ (operator_token "#=" = true -> opText_of "#=" = JUndefined)).
Proof.
  do 7 (split; [ reflexivity | ]).
  exact (unknown_token_reaches_operator
           Sample.World Sample.engine (mkNode a "#=" b) strings
           (NormalCompletion (Ref Sample.global "a")) strings
           (Val (Value_string "x")) strings
           (NormalCompletion (Ref Sample.global "b")) strings
           (Val (Value_string "y")) strings
           Sample.TypeError_completion strings
           Sample.TypeError_completion strings
           eq_refl eq_refl eq_refl eq_refl eq_refl eq_refl eq_refl).
Defined.

(** C9 as stated fails at the token [toString], which is none of the
    twelve and has no branch of its own: the table is an object literal,
    the lookup finds the member of that name that the table inherits from
    [Object.prototype], and the operator is called with it. *)
Lemma inherited_token_does_not_read_undefined :
  ~ Stated.unknown_token_reads_undefined "toString"
  /\ Get opText_table "toString" = Return (JInherited "toString")
  /\ trace Sample.engine
       (Evaluate_AssignmentExpression (mkNode a "toString" b)) strings =
       [ Evaluate a; GetValue (NormalCompletion (Ref Sample.global "a"));
         Evaluate b; GetValue (NormalCompletion (Ref Sample.global "b"));
         ApplyStringOrNumericBinaryOperator
           (Val (Value_string "x")) (JInherited "toString")
           (Val (Value_string "y"));
         PutValue (NormalCompletion (Ref Sample.global "a"))
                  Sample.TypeError_completion ].
Proof.
  split; [ | split; reflexivity ].
  intros H. unfold Stated.unknown_token_reads_undefined in H.
  assert (Hnot : ~ In "toString" compound_tokens).
  { unfold compound_tokens. cbn. intros Hin.
    repeat (destruct Hin as [Hin | Hin]; [ discriminate Hin | ]).
    exact Hin. }
  specialize (H eq_refl Hnot). discriminate H.
Qed.

(** [a #= b] on the small engine: the operator is called with [undefined]
    for its symbol. *)
Example unknown_assign_run :
  trace Sample.engine (Evaluate_AssignmentExpression (mkNode a "#=" b)) strings =
    [ Evaluate a; GetValue (NormalCompletion (Ref Sample.global "a"));
      Evaluate b; GetValue (NormalCompletion (Ref Sample.global "b"));
      ApplyStringOrNumericBinaryOperator
        (Val (Value_string "x")) JUndefined (Val (Value_string "y"));
      PutValue (NormalCompletion (Ref Sample.global "a"))
               Sample.TypeError_completion ].
Proof. reflexivity. Qed.

(** C2 at [a &&= "s"] with [a] the empty string: the test says stop. *)
Lemma logical_assignment_short_circuits_witness :
  In and_assign.(AssignmentOperator) [ "&&="; "||="; "??=" ]
  /\ Sample.engine (Evaluate a) empty_string
     = (NormalCompletion (Ref Sample.global "a"), empty_string)
  /\ Sample.engine (GetValue (NormalCompletion (Ref Sample.global "a"))) empty_string
     = (NormalCompletion (Val (Value_string "")), empty_string)
  /\ short_circuit_test Sample.engine "&&=" (Val (Value_string "")) empty_string
     = Some (true, empty_string, [ ToBoolean (Val (Value_string "")) ])
  /\ run Sample.engine (Evaluate_AssignmentExpression and_assign) empty_string =
       (Returned (NormalCompletion (Val (Value_string ""))), empty_string,
        [ Evaluate a; GetValue (NormalCompletion (Ref Sample.global "a")) ]
        ++ [ ToBoolean (Val (Value_string "")) ]).
Proof.
  split; [ cbn; tauto | ]. split; [ reflexivity | ]. split; [ reflexivity | ].
  split; [ reflexivity | ].
  refine (proj1 (proj2 (logical_assignment_short_circuits
           Sample.World Sample.engine and_assign empty_string
           (NormalCompletion (Ref Sample.global "a")) empty_string
           (Val (Value_string "")) empty_string
           true empty_string [ ToBoolean (Val (Value_string "")) ]
           _ eq_refl eq_refl eq_refl)) eq_refl).
  cbn; tauto.
Defined.

(** C6 at [a = function () {}]. *)
Lemma plain_assignment_names_anonymous_function_witness :
  function_assign.(AssignmentOperator) = "="
  /\ Get a "type" = Return (JStr "IdentifierReference")
  /\ is_literal (JStr "IdentifierReference") = false
  /\ Sample.engine (Evaluate a) nothing = (NormalCompletion (Ref Sample.global "a"), nothing)
  /\ Sample.engine (IsAnonymousFunctionDefinition Sample.FunctionExpression) nothing
     = (true, nothing)
  /\ Sample.engine (IsIdentifierRef a) nothing = (true, nothing)
  /\ exists rval,
       trace Sample.engine (Evaluate_AssignmentExpression function_assign) nothing =
         [ Evaluate a ]
         ++ [ IsAnonymousFunctionDefinition Sample.FunctionExpression;
              IsIdentifierRef a ]
         ++ [ GetReferencedName (Ref Sample.global "a");
              NamedEvaluation Sample.FunctionExpression (Value_string "a");
              PutValue (NormalCompletion (Ref Sample.global "a")) rval ].
Proof.
  repeat (split; [ reflexivity | ]).
  exact (proj1 (plain_assignment_names_anonymous_function
           Sample.World Sample.engine function_assign nothing
           (JStr "IdentifierReference") (Ref Sample.global "a") nothing
           true nothing true nothing
           eq_refl eq_refl eq_refl eq_refl eq_refl eq_refl) eq_refl).
Defined.


(** C10 at [a = "s"]. *)
Lemma normal_completion_returns_stored_value_witness :
  result Sample.engine (Evaluate_AssignmentExpression plain_assign) nothing
    = Returned (NormalCompletion (Val (Value_string "s")))
  /\ (stores (trace Sample.engine
                (Evaluate_AssignmentExpression plain_assign) nothing)
        = [ NormalCompletion (Val (Value_string "s")) ]
      \/ (stores (trace Sample.engine
                    (Evaluate_AssignmentExpression plain_assign) nothing) = []
          /\ In plain_assign.(AssignmentOperator) [ "&&="; "||="; "??=" ]
          /\ exists lref w1 test,
               Sample.engine (Evaluate a) nothing = (lref, w1)
               /\ fst (Sample.engine (GetValue lref) w1)
                  = NormalCompletion (Val (Value_string "s"))
               /\ trace Sample.engine
                    (Evaluate_AssignmentExpression plain_assign) nothing =
                    [ Evaluate a; GetValue lref ] ++ test
               /\ (test = [] \/ test = [ ToBoolean (Val (Value_string "s")) ]))).
Proof.
  split; [ reflexivity | ].
  exact (normal_completion_returns_stored_value
           Sample.World Sample.engine plain_assign nothing
           (Val (Value_string "s")) eq_refl).
Defined.

(** [[] = "s"]: the value of the source is handed to the destructuring
    evaluator and returned. *)
Example empty_pattern_assign_run :
  run Sample.engine (Evaluate_AssignmentExpression empty_pattern_assign) [] =
    (Returned (NormalCompletion (Val (Value_string "s"))), [],
     [ Evaluate (Sample.StringLiteral "s");
       GetValue (NormalCompletion (Val (Value_string "s")));
       DestructuringAssignmentEvaluation
         (JObj [ ("type", JStr "ArrayAssignmentPattern");
                 ("AssignmentElementList", JArr []) ])
         (Val (Value_string "s")) ]).
Proof. reflexivity. Qed.

(** C4 at [[a, , b]] with an empty slot. *)
Lemma refine_ArrayLiteral_elements_witness :
  own "type" sparse_props = Some (JStr "ArrayLiteral")
  /\ own "ElementList" sparse_props = Some (JArr sparse_slots)
  /\ refineLeftHandSideExpression (JObj sparse_props) =
       (elements <- Array_map refineLeftHandSideExpression sparse_slots ;;
        Return (JObj [ ("type", JStr "ArrayAssignmentPattern");
                       ("AssignmentElementList", JArr elements) ]))
  /\ (forall elements,
        Array_map refineLeftHandSideExpression sparse_slots = Return elements ->
        forall i,
          match nth_error sparse_slots i with
          | None => nth_error elements i = None
          | Some None => nth_error elements i = Some None
          | Some (Some x) =>
              exists y, refineLeftHandSideExpression x = Return y
                        /\ nth_error elements i = Some (Some y)
          end)
  /\ (forall x, In (Some x) sparse_slots -> absent_element x ->
        exists e, refineLeftHandSideExpression (JObj sparse_props) = Throw e).
Proof.
  split; [ reflexivity | ]. split; [ reflexivity | ].
  exact (refine_ArrayLiteral_elements sparse_props sparse_slots eq_refl eq_refl).
Defined.

(** C4 as stated fails at [[, a]]: an absent first element, whether the
    list holds an [Elision] node, [null] or [undefined] for it, makes the
    refiner throw. *)
Lemma absent_element_faults :
  ~ Stated.holes_pass_through [ Some Ast.Elision; Some a ]
  /\ refineLeftHandSideExpression (Ast.ArrayLiteral [ Some Ast.Elision; Some a ])
     = Throw (OutOfRange_refine (JStr "Elision"))
  /\ refineLeftHandSideExpression (Ast.ArrayLiteral [ Some JNull; Some a ])
     = Throw TypeError
  /\ refineLeftHandSideExpression (Ast.ArrayLiteral [ Some JUndefined; Some a ])
     = Throw TypeError.
Proof.
  split; [ | repeat split ].
  intros H. destruct H as [pattern Hp].
  - intros x [[= <-] | [[= <-] | []]].
    + left. right. right. reflexivity.
    + right. eexists. reflexivity.
  - discriminate Hp.
Qed.

(** ** The further statements on concrete programs *)

(** [{...r, a, ...s, b}]: the two identifiers are listed and the rest
    property is the second spread. *)
Example spread_in_the_middle :
  refineLeftHandSideExpression (JObj spread_props) =
    Return (JObj [ ("type", JStr "ObjectAssignmentPattern");
                   ("AssignmentPropertyList",
                    JArr [ Some (JObj [ ("type", JStr "AssignmentProperty");
                                        ("IdentifierReference", a);
                                        ("Initializer", JUndefined) ]);
                           Some (JObj [ ("type", JStr "AssignmentProperty");
                                        ("IdentifierReference", b);
                                        ("Initializer", JUndefined) ]) ]);
                   ("AssignmentRestProperty",
                    AssignmentRestProperty_object
                      (Ast.IdentifierReference "s")) ]).
Proof. reflexivity. Qed.

Lemma refine_result_is_tagged_by_type_witness :
  refineLeftHandSideExpression (JObj sparse_props)
    = Return (JObj [ ("type", JStr "ArrayAssignmentPattern");
                     ("AssignmentElementList",
                      JArr [ Some (JObj [ ("type", JStr "AssignmentProperty");
                                          ("IdentifierReference", a);
                                          ("Initializer", JUndefined) ]);
                             None;
                             Some (JObj [ ("type", JStr "AssignmentProperty");
                                          ("IdentifierReference", b);
                                          ("Initializer", JUndefined) ]) ]) ])
  /\ exists type,
       Get (JObj sparse_props) "type" = Return (JStr type)
       /\ In type handled_types
       /\ Get (JObj [ ("type", JStr "ArrayAssignmentPattern");
                      ("AssignmentElementList",
                       JArr [ Some (JObj [ ("type", JStr "AssignmentProperty");
                                           ("IdentifierReference", a);
                                           ("Initializer", JUndefined) ]);
                              None;
                              Some (JObj [ ("type", JStr "AssignmentProperty");
                                           ("IdentifierReference", b);
                                           ("Initializer", JUndefined) ]) ]) ])
            "type" = Return (JStr (pattern_tag type)).
Proof.
  split; [ reflexivity | ].
  exact (refine_result_is_tagged_by_type (JObj sparse_props) _ eq_refl).
Defined.

Lemma refine_ArrayLiteral_succeeds_iff_witness :
  own "type" sparse_props = Some (JStr "ArrayLiteral")
  /\ own "ElementList" sparse_props = Some (JArr sparse_slots)
  /\ ((exists pattern,
         refineLeftHandSideExpression (JObj sparse_props) = Return pattern)
      <-> (forall x, In (Some x) sparse_slots ->
                     exists y, refineLeftHandSideExpression x = Return y))
  /\ (forall pattern,
        refineLeftHandSideExpression (JObj sparse_props) = Return pattern ->
        exists elements,
          Get pattern "AssignmentElementList" = Return (JArr elements)
          /\ length elements = length sparse_slots).
Proof.
  split; [ reflexivity | ]. split; [ reflexivity | ].
  exact (refine_ArrayLiteral_succeeds_iff sparse_props sparse_slots
           eq_refl eq_refl).
Defined.

Lemma refine_ArrayLiteral_first_error_witness :
  own "type" elision_props = Some (JStr "ArrayLiteral")
  /\ own "ElementList" elision_props
     = Some (JArr ([ Some a ] ++ Some Ast.Elision :: [ Some b ]))
  /\ (forall y, In (Some y) [ Some a ] ->
                exists z, refineLeftHandSideExpression y = Return z)
  /\ refineLeftHandSideExpression Ast.Elision
     = Throw (OutOfRange_refine (JStr "Elision"))
  /\ refineLeftHandSideExpression (JObj elision_props)
     = Throw (OutOfRange_refine (JStr "Elision")).
Proof.
  assert (Hbefore : forall y, In (Some y) [ Some a ] ->
                      exists z, refineLeftHandSideExpression y = Return z).
  { intros y [[= <-] | []]. eexists. reflexivity. }
  split; [ reflexivity | ]. split; [ reflexivity | ].
  split; [ exact Hbefore | ]. split; [ reflexivity | ].
  exact (refine_ArrayLiteral_first_error elision_props
           [ Some a ] Ast.Elision [ Some b ] _ eq_refl eq_refl Hbefore eq_refl).
Defined.

Lemma refine_missing_field_witness :
  own "type" [ ("type", JStr "ArrayLiteral") ] = Some (JStr "ArrayLiteral")
  /\ In ("ArrayLiteral", "ElementList")
       [ ("ArrayLiteral", "ElementList");
         ("ObjectLiteral", "PropertyDefinitionList");
         ("PropertyDefinition", "AssignmentExpression") ]
  /\ own "ElementList" [ ("type", JStr "ArrayLiteral") ] = None
  /\ refineLeftHandSideExpression (JObj [ ("type", JStr "ArrayLiteral") ])
     = Throw TypeError.
Proof.
  split; [ reflexivity | ]. split; [ left; reflexivity | ].
  split; [ reflexivity | ].
  exact (refine_missing_field [ ("type", JStr "ArrayLiteral") ]
           "ArrayLiteral" "ElementList" eq_refl (or_introl eq_refl) eq_refl).
Defined.

Lemma refine_ObjectLiteral_partition_witness :
  own "type" spread_props = Some (JStr "ObjectLiteral")
  /\ own "PropertyDefinitionList" spread_props = Some (JArr spread_slots)
  /\ exists listed,
       Forall2 (fun p y => refineLeftHandSideExpression p = Return y)
         (filter (fun p => negb (is_rest p)) (present spread_slots)) listed
       /\ JObj [ ("type", JStr "ObjectAssignmentPattern");
                 ("AssignmentPropertyList",
                  JArr [ Some (JObj [ ("type", JStr "AssignmentProperty");
                                      ("IdentifierReference", a);
                                      ("Initializer", JUndefined) ]);
                         Some (JObj [ ("type", JStr "AssignmentProperty");
                                      ("IdentifierReference", b);
                                      ("Initializer", JUndefined) ]) ]);
                 ("AssignmentRestProperty",
                  AssignmentRestProperty_object (Ast.IdentifierReference "s")) ]
          = JObj ([ ("type", JStr "ObjectAssignmentPattern");
                    ("AssignmentPropertyList", JArr (map Some listed)) ]
                  ++ match last_rest None (present spread_slots) with
                     | Some value =>
                         [ ("AssignmentRestProperty",
                            AssignmentRestProperty_object value) ]
                     | None => []
                     end).
Proof.
  split; [ reflexivity | ]. split; [ reflexivity | ].
  exact (refine_ObjectLiteral_partition spread_props spread_slots _
           eq_refl eq_refl eq_refl).
Defined.

Lemma refine_leaf_always_succeeds_witness :
  own "type" [ ("type", JStr "CoverInitializedName");
               ("IdentifierReference", a) ]
    = Some (JStr "CoverInitializedName")
  /\ In "CoverInitializedName"
       [ "IdentifierReference"; "CoverInitializedName"; "AssignmentExpression" ]
  /\ refineLeftHandSideExpression
       (JObj [ ("type", JStr "CoverInitializedName");
               ("IdentifierReference", a) ]) =
       Return (JObj [ ("type", JStr "AssignmentProperty");
                      ("IdentifierReference", a);
                      ("Initializer", JUndefined) ]).
Proof.
  split; [ reflexivity | ]. split; [ right; left; reflexivity | ].
  exact (proj2 (refine_leaf_always_succeeds
                  [ ("type", JStr "CoverInitializedName");
                    ("IdentifierReference", a) ] "CoverInitializedName"
                  eq_refl (or_intror (or_introl eq_refl)))).
Defined.

Lemma refine_PropertyDefinition_succeeds_iff_witness :
  own "type" [ ("type", JStr "PropertyDefinition") ]
    = Some (JStr "PropertyDefinition")
  /\ ((exists pattern,
         refineLeftHandSideExpression
           (JObj [ ("type", JStr "PropertyDefinition") ]) = Return pattern)
      <-> (exists value,
             own "AssignmentExpression" [ ("type", JStr "PropertyDefinition") ]
               = Some value
             /\ value <> JUndefined /\ value <> JNull)).
Proof.
  split; [ reflexivity | ].
  exact (refine_PropertyDefinition_succeeds_iff
           [ ("type", JStr "PropertyDefinition") ] eq_refl).
Defined.

(** [a += b] on two objects: the [TypeError] returned is the operator's. *)
Lemma abrupt_result_is_an_answer_witness :
  result Sample.engine (Evaluate_AssignmentExpression add_assign) objects
    = Returned Sample.TypeError_completion
  /\ is_abrupt Sample.TypeError_completion = true
  /\ In Sample.TypeError_completion
       (answers Sample.engine (Evaluate_AssignmentExpression add_assign) objects).
Proof.
  split; [ reflexivity | ]. split; [ reflexivity | ].
  exact (abrupt_result_is_an_answer Sample.World Sample.engine
           add_assign objects Sample.TypeError_completion eq_refl eq_refl).
Defined.



(** [a #= b] against an operator that throws on an operator text that is
    no string: the exception leaves the evaluator at the operator's call,
    and nothing is stored. *)
Example unknown_assign_strict_operator :
  outcome_of engine_strict_operator
    (Evaluate_AssignmentExpression (mkNode a "#=" b)) strings
    = Thrown (OutOfRange "ApplyStringOrNumericBinaryOperator" JUndefined)
  /\ thrown_by engine_strict_operator
       (Evaluate_AssignmentExpression (mkNode a "#=" b)) strings
     = Some (ApplyStringOrNumericBinaryOperator
               (Val (Value_string "x")) JUndefined (Val (Value_string "y")),
             OutOfRange "ApplyStringOrNumericBinaryOperator" JUndefined)
  /\ calls_of engine_strict_operator
       (Evaluate_AssignmentExpression (mkNode a "#=" b)) strings =
       [ Evaluate a; GetValue (NormalCompletion (Ref Sample.global "a"));
         Evaluate b; GetValue (NormalCompletion (Ref Sample.global "b"));
         ApplyStringOrNumericBinaryOperator
           (Val (Value_string "x")) JUndefined (Val (Value_string "y")) ].
Proof. repeat split. Qed.

(** [[] = "s"]. *)
Lemma destructuring_assignment_run_witness :
  empty_pattern_assign.(AssignmentOperator) = "="
  /\ Get empty_pattern_assign.(LeftHandSideExpression) "type"
     = Return (JStr "ArrayLiteral")
  /\ is_literal (JStr "ArrayLiteral") = true
  /\ run Sample.engine (Evaluate_AssignmentExpression empty_pattern_assign) [] =
       (Returned (NormalCompletion (Val (Value_string "s"))), [],
        [ Evaluate (Sample.StringLiteral "s");
          GetValue (NormalCompletion (Val (Value_string "s")));
          DestructuringAssignmentEvaluation
            (JObj [ ("type", JStr "ArrayAssignmentPattern");
                    ("AssignmentElementList", JArr []) ])
            (Val (Value_string "s")) ]).
Proof.
  repeat (split; [ reflexivity | ]).
  exact (destructuring_assignment_run Sample.World Sample.engine
           empty_pattern_assign [] (JStr "ArrayLiteral")
           eq_refl eq_refl eq_refl).
Defined.

(** [f() = "s"]: the evaluation of the target throws. *)
Lemma plain_assignment_abrupt_target_witness :
  call_assign.(AssignmentOperator) = "="
  /\ Get call_assign.(LeftHandSideExpression) "type"
     = Return (JStr "CallExpression")
  /\ is_literal (JStr "CallExpression") = false
  /\ Sample.engine (Evaluate call_assign.(LeftHandSideExpression)) []
     = (AbruptCompletion throw (Value_string "SyntaxError") None, [])
  /\ run Sample.engine (Evaluate_AssignmentExpression call_assign) [] =
       (Returned (AbruptCompletion throw (Value_string "SyntaxError") None), [],
        [ Evaluate call_assign.(LeftHandSideExpression) ]).
Proof.
  repeat (split; [ reflexivity | ]).
  exact (plain_assignment_abrupt_target Sample.World Sample.engine
           call_assign [] (JStr "CallExpression")
           throw (Value_string "SyntaxError") None []
           eq_refl eq_refl eq_refl eq_refl).
Defined.

(** [a += b] with [a] unbound: reading [a] is a [ReferenceError]. *)
Lemma abrupt_target_value_ends_the_run_witness :
  add_assign.(AssignmentOperator) <> "="
  /\ Sample.engine (Evaluate a) []
     = (NormalCompletion (Ref Sample.global "a"), [])
  /\ Sample.engine (GetValue (NormalCompletion (Ref Sample.global "a"))) []
     = (Sample.ReferenceError, [])
  /\ is_abrupt Sample.ReferenceError = true
  /\ run Sample.engine (Evaluate_AssignmentExpression add_assign) [] =
       (Returned Sample.ReferenceError, [],
        [ Evaluate a; GetValue (NormalCompletion (Ref Sample.global "a")) ]).
Proof.
  assert (Hop : add_assign.(AssignmentOperator) <> "=").
  { discriminate. }
  split; [ exact Hop | ]. repeat (split; [ reflexivity | ]).
  exact (abrupt_target_value_ends_the_run Sample.World Sample.engine
           add_assign [] (NormalCompletion (Ref Sample.global "a")) []
           Sample.ReferenceError [] Hop eq_refl eq_refl eq_refl).
Defined.

(** [a &&= "s"] on an engine whose [ToBoolean] completes abruptly. *)
Lemma abrupt_coercion_fails_the_assertion_witness :
  (and_assign.(AssignmentOperator) = "&&="
   \/ and_assign.(AssignmentOperator) = "||=")
  /\ Sample.engine_abrupt_coercion (Evaluate a) strings
     = (NormalCompletion (Ref Sample.global "a"), strings)
  /\ Sample.engine_abrupt_coercion
       (GetValue (NormalCompletion (Ref Sample.global "a"))) strings
     = (NormalCompletion (Val (Value_string "x")), strings)
  /\ Sample.engine_abrupt_coercion (ToBoolean (Val (Value_string "x"))) strings
     = (Sample.TypeError_completion, strings)
  /\ is_abrupt Sample.TypeError_completion = true
  /\ run Sample.engine_abrupt_coercion
       (Evaluate_AssignmentExpression and_assign) strings =
       (Thrown AssertionError, strings,
        [ Evaluate a; GetValue (NormalCompletion (Ref Sample.global "a"));
          ToBoolean (Val (Value_string "x")) ]).
Proof.
  split; [ left; reflexivity | ]. repeat (split; [ reflexivity | ]).
  exact (abrupt_coercion_fails_the_assertion
           Sample.World Sample.engine_abrupt_coercion and_assign strings
           (NormalCompletion (Ref Sample.global "a")) strings
           (Val (Value_string "x")) strings
           Sample.TypeError_completion strings
           (or_introl eq_refl) eq_refl eq_refl eq_refl eq_refl).
Defined.

(** [a ??= "s"]. *)
Lemma only_and_or_coerce_witness :
  coalesce_assign.(AssignmentOperator) <> "&&="
  /\ coalesce_assign.(AssignmentOperator) <> "||="
  /\ existsb is_ToBoolean
       (trace Sample.engine
          (Evaluate_AssignmentExpression coalesce_assign) nothing) = false.
Proof.
  assert (Hand : coalesce_assign.(AssignmentOperator) <> "&&=").
  { discriminate. }
  assert (Hor : coalesce_assign.(AssignmentOperator) <> "||=").
  { discriminate. }
  split; [ exact Hand | ]. split; [ exact Hor | ].
  exact (only_and_or_coerce Sample.World Sample.engine
           coalesce_assign nothing Hand Hor).
Defined.

(** [a = function () {}]. *)
Lemma named_evaluation_completion_is_passed_to_PutValue_witness :
  function_assign.(AssignmentOperator) = "="
  /\ Get a "type" = Return (JStr "IdentifierReference")
  /\ is_literal (JStr "IdentifierReference") = false
  /\ run Sample.engine (Evaluate_AssignmentExpression function_assign) nothing =
       (Returned (if is_abrupt (NormalCompletion (Val Value_undefined))
                  then NormalCompletion (Val Value_undefined)
                  else NormalCompletion (Val (Value_object 1))),
        ("a", Value_object 1) :: nothing,
        [ Evaluate a;
          IsAnonymousFunctionDefinition Sample.FunctionExpression;
          IsIdentifierRef a;
          GetReferencedName (Ref Sample.global "a");
          NamedEvaluation Sample.FunctionExpression (Value_string "a");
          PutValue (NormalCompletion (Ref Sample.global "a"))
                   (NormalCompletion (Val (Value_object 1))) ]).
Proof.
  repeat (split; [ reflexivity | ]).
  exact (named_evaluation_completion_is_passed_to_PutValue
           Sample.World Sample.engine function_assign nothing
           (JStr "IdentifierReference") (Ref Sample.global "a")
           nothing nothing nothing (Value_string "a") nothing
           (NormalCompletion (Val (Value_object 1))) nothing
           (NormalCompletion (Val Value_undefined)) (("a", Value_object 1) :: nothing)
           eq_refl eq_refl eq_refl eq_refl eq_refl eq_refl eq_refl eq_refl
           eq_refl).
Defined.
